(** * NVDA: Ease of Access helper and Outlook app module

    Shallow embedding of [source/easeOfAccess.py] and of the handlers of
    [source/appModules/outlook.py] that carry logic of their own
    ([CalendarView._generateTimeRangeText], [UIAGridRow._get_name],
    [AppModule.event_NVDAObject_init]), with the properties the
    specification states about them.

    Python values are modelled as the code uses them: strings as [string],
    integers as [Z] (bit masks with [Z.land]/[Z.lor]), lists as [list],
    the Windows registry as a finite map, exceptions through an
    error-and-state monad in which a raised exception keeps the effects
    performed before it. *)

From Stdlib Require Import ZArith String Ascii List Bool Lia.
From stdpp Require Import base gmap sets list strings.

Local Open Scope string_scope.
Local Open Scope Z_scope.

(** ** Python strings: [str.split(sep)] and [sep.join(list)] *)

Module PyStr.

(** [s.split(sep)] for a one-character separator: every occurrence of
    the separator cuts, empty fields are kept, and the empty string
    gives the one-element list holding the empty string. *)
Fixpoint split (sep : ascii) (s : string) : list string :=
  match s with
  | EmptyString => [EmptyString]
  | String c rest =>
      if Ascii.eqb c sep then EmptyString :: split sep rest
      else match split sep rest with
           | [] => [String c EmptyString]
           | field :: fields => String c field :: fields
           end
  end.

(** [sep.join(l)] *)
Fixpoint join (sep : string) (l : list string) : string :=
  match l with
  | [] => EmptyString
  | [x] => x
  | x :: rest => x +:+ sep +:+ join sep rest
  end.

(** the separator does not occur in the string *)
Fixpoint free_of (sep : ascii) (s : string) : bool :=
  match s with
  | EmptyString => true
  | String c rest => negb (Ascii.eqb c sep) && free_of sep rest
  end.

(** Python truthiness of a string *)
Definition truthy (s : string) : bool :=
  match s with EmptyString => false | _ => true end.

End PyStr.

(** ** Exceptions and the effect monad *)

Inductive exn : Type :=
  | FileNotFoundError   (* subclass of OSError *)
  | PermissionError     (* subclass of OSError *)
  | OSError             (* any other OSError; [WindowsError] is its alias *)
  | UnboundLocalError
  | AttributeError
  | ValueError
  | IndexError
  | OverflowError
  | COMError.

(** [isinstance(e, FileNotFoundError)] *)
Definition isFileNotFoundError (e : exn) : bool :=
  match e with FileNotFoundError => true | _ => false end.

(** [isinstance(e, WindowsError)]: [WindowsError] is [OSError], so its
    subclasses are matched as well. *)
Definition isWindowsError (e : exn) : bool :=
  match e with
  | FileNotFoundError | PermissionError | OSError => true
  | _ => false
  end.

Definition isValueError (e : exn) : bool :=
  match e with ValueError => true | _ => false end.

Inductive result (A : Type) : Type :=
  | Ok (a : A)
  | Raise (e : exn).
Arguments Ok {A} a.
Arguments Raise {A} e.

(** ** The world the module acts on *)

(** A Python value as [winreg] hands it over: a [str] or an [int]. *)
Inductive PyValue : Type :=
  | PyStr (s : string)
  | PyInt (n : Z).

(** [winreg] constants (Python standard library, Windows SDK values). *)
Module winreg.
Definition HKEY_CURRENT_USER : Z := 0x80000001.
Definition HKEY_LOCAL_MACHINE : Z := 0x80000002.
Definition KEY_QUERY_VALUE : Z := 0x0001.
Definition KEY_SET_VALUE : Z := 0x0002.
Definition KEY_READ : Z := 0x20019.
Definition KEY_WRITE : Z := 0x20006.
Definition KEY_ALL_ACCESS : Z := 0xF003F.
Definition KEY_WOW64_64KEY : Z := 0x0100.
Definition KEY_WOW64_32KEY : Z := 0x0200.
Definition REG_SZ : Z := 1.
Definition REG_DWORD : Z := 4.
End winreg.
Import winreg.

(** A registry key: the access rights the caller is granted on it and
    its values, each stored as [QueryValueEx] returns it (data, type). *)
Record RegKey : Type := mkRegKey {
  granted : Z;
  values : gmap string (PyValue * Z)
}.

(** An open handle ([winreg.HKEYType]). *)
Record HKEYType : Type := mkHandle {
  h_root : Z;
  h_path : string;
  h_access : Z
}.

(** [winUser.Input] restricted to the fields [notify] sets;
    a fresh structure is zero-initialised apart from [type]. *)
Record Input : Type := mkInput {
  type_ : Z;
  wVk : Z;
  dwFlags : Z
}.

Inductive LogLevel : Type := DEBUG | ERROR | INFO.

Record World : Type := mkWorld {
  registry : gmap (Z * string) RegKey;
  keysDown : gset Z;          (* virtual keys currently held *)
  keysRecent : gset Z;        (* keys pressed since the last query *)
  sentInputs : list (list Input);
  logged : list (LogLevel * string)
}.

Definition M (A : Type) : Type := World -> result A * World.

Definition ret {A} (a : A) : M A := fun w => (Ok a, w).
Definition raise {A} (e : exn) : M A := fun w => (Raise e, w).
Definition bind {A B} (m : M A) (f : A -> M B) : M B :=
  fun w =>
    match m w with
    | (Ok a, w') => f a w'
    | (Raise e, w') => (Raise e, w')
    end.

#[global] Instance M_ret : MRet M := @ret.
#[global] Instance M_bind : MBind M := fun A B f m => bind m f.

(** [try: body except ...: handler]; [handlers e] is the first clause
    that matches [e], if any.  Effects of the body before the raise stay. *)
Definition try_except {A} (body : M A) (handlers : exn -> option (M A)) : M A :=
  fun w =>
    match body w with
    | (Ok a, w') => (Ok a, w')
    | (Raise e, w') =>
        match handlers e with
        | Some h => h w'
        | None => (Raise e, w')
        end
    end.

(** Reading a local variable that may not have been assigned. *)
Definition read_local {A} (v : option A) : M A :=
  match v with
  | Some a => ret a
  | None => raise UnboundLocalError
  end.

(** *** logHandler *)

Definition log_write (lvl : LogLevel) (msg : string) : M unit :=
  fun w => (Ok tt, mkWorld (registry w) (keysDown w) (keysRecent w)
                           (sentInputs w) (logged w ++ [(lvl, msg)])%list).
Definition log_debug := log_write DEBUG.
Definition log_error := log_write ERROR.

(** *** winreg *)

(** The rights an access mask asks for: the registry-view flags are not
    rights. *)
Definition requested_rights (access : Z) : Z :=
  Z.ldiff access (Z.lor KEY_WOW64_64KEY KEY_WOW64_32KEY).

Definition access_ok (grant access : Z) : bool :=
  Z.ldiff (requested_rights access) grant =? 0.

Definition OpenKey (key : Z) (sub_key : string) (reserved access : Z)
  : M HKEYType :=
  fun w =>
    match registry w !! (key, sub_key) with
    | None => (Raise FileNotFoundError, w)
    | Some k =>
        if access_ok (granted k) access
        then (Ok (mkHandle key sub_key access), w)
        else (Raise PermissionError, w)
    end.

Definition set_registry (r : gmap (Z * string) RegKey) (w : World) : World :=
  mkWorld r (keysDown w) (keysRecent w) (sentInputs w) (logged w).

(** [CreateKey] opens the key when it exists and creates it otherwise. *)
Definition CreateKey (key : Z) (sub_key : string) : M HKEYType :=
  fun w =>
    match registry w !! (key, sub_key) with
    | None =>
        (Ok (mkHandle key sub_key KEY_WRITE),
         set_registry (<[(key, sub_key) := mkRegKey KEY_ALL_ACCESS ∅]> (registry w)) w)
    | Some k =>
        if access_ok (granted k) KEY_WRITE
        then (Ok (mkHandle key sub_key KEY_WRITE), w)
        else (Raise PermissionError, w)
    end.

Definition QueryValueEx (h : HKEYType) (value_name : string)
  : M (PyValue * Z) :=
  fun w =>
    if negb (Z.land (h_access h) KEY_QUERY_VALUE =? KEY_QUERY_VALUE)
    then (Raise PermissionError, w)
    else
      match registry w !! (h_root h, h_path h) with
      | None => (Raise OSError, w)
      | Some k =>
          match values k !! value_name with
          | None => (Raise FileNotFoundError, w)
          | Some v => (Ok v, w)
          end
      end.

(** The data [SetValueEx] stores for a type code, or the exception the
    conversion raises. *)
Definition convert_data (type : Z) (value : PyValue) : result PyValue :=
  if type =? REG_SZ then
    match value with
    | PyStr s => Ok (PyStr s)
    | PyInt _ => Raise ValueError
    end
  else if type =? REG_DWORD then
    match value with
    | PyInt n => if (0 <=? n) && (n <? 2 ^ 32) then Ok (PyInt n)
                 else Raise OverflowError
    | PyStr _ => Raise ValueError
    end
  else Raise ValueError.

Definition SetValueEx (h : HKEYType) (value_name : string)
    (reserved : option Z) (type : Z) (value : PyValue) : M unit :=
  fun w =>
    match convert_data type value with
    | Raise e => (Raise e, w)
    | Ok data =>
        if negb (Z.land (h_access h) KEY_SET_VALUE =? KEY_SET_VALUE)
        then (Raise PermissionError, w)
        else
          match registry w !! (h_root h, h_path h) with
          | None => (Raise OSError, w)
          | Some k =>
              (Ok tt,
               set_registry
                 (<[(h_root h, h_path h) :=
                      mkRegKey (granted k) (<[value_name := (data, type)]> (values k))]>
                    (registry w)) w)
          end
    end.

(** ** source/easeOfAccess.py *)

Definition ROOT_KEY : string :=
  "Software\Microsoft\Windows NT\CurrentVersion\Accessibility".
Definition APP_KEY_NAME : string := "nvda_nvda_v1".
(** [r"%s\ATs\%s" % (ROOT_KEY, APP_KEY_NAME)] *)
Definition APP_KEY_PATH : string :=
  ROOT_KEY +:+ "\ATs\" +:+ APP_KEY_NAME.

Definition isRegistered : M bool :=
  r ← try_except
        (OpenKey HKEY_LOCAL_MACHINE APP_KEY_PATH 0 (Z.lor KEY_READ KEY_WOW64_64KEY);;
         mret (Some true))
        (fun e =>
           if isFileNotFoundError e then
             Some (log_debug "Unable to find AT registry key";; mret None)
           else if isWindowsError e then
             Some (log_error "Unable to open AT registry key";; mret None)
           else None);
  match r with
  | Some b => mret b
  | None => mret false
  end.

(** [x.split(",")] on whatever [QueryValueEx] returned: only a [str] has
    the method. *)
Definition py_split (v : PyValue) (sep : ascii) : M (list string) :=
  match v with
  | PyStr s => mret (PyStr.split sep s)
  | PyInt _ => raise AttributeError
  end.

(** [l[0]] *)
Definition py_index0 {A} (l : list A) : M A :=
  match l with
  | x :: _ => mret x
  | [] => raise IndexError
  end.

Definition _getAutoStartConfiguration (hkey : Z) : M (list string) :=
  opened ← try_except
        (k ← OpenKey hkey ROOT_KEY 0 (Z.lor KEY_READ KEY_WOW64_64KEY);
         mret (inr k))
        (fun e =>
           if isFileNotFoundError e then
             Some (log_debug "Unable to find existing auto start registry key";;
                   mret (inl []))
           else if isWindowsError e then
             Some (log_error "Unable to open auto start registry key for reading";;
                   mret (inl []))
           else None);
  match opened with
  | inl early => mret early
  | inr k =>
      queried ← try_except
        (v ← QueryValueEx k "Configuration";
         conf ← py_split (fst v) ",";
         mret (Some conf))
        (fun e =>
           if isFileNotFoundError e then
             Some (log_debug "Unable to find auto start configuration";; mret None)
           else if isWindowsError e then
             Some (log_error "Unable to query auto start configuration";; mret None)
           else None);
      match queried with
      | Some conf =>
          first ← py_index0 conf;
          if negb (PyStr.truthy first)
          then mret (tail conf)      (* del conf[0] *)
          else mret conf
      | None => mret []
      end
  end.

Definition willAutoStart (hkey : Z) : M bool :=
  conf ← _getAutoStartConfiguration hkey;
  mret (bool_decide (APP_KEY_NAME ∈ conf)).

(** [l.remove(x)]: drops the first occurrence, [ValueError] when there is
    none. *)
Fixpoint remove_first (x : string) (l : list string) : option (list string) :=
  match l with
  | [] => None
  | y :: rest =>
      if bool_decide (y = x) then Some rest
      else match remove_first x rest with
           | Some rest' => Some (y :: rest')
           | None => None
           end
  end.

Definition py_remove (l : list string) (x : string) : M (list string) :=
  match remove_first x l with
  | Some l' => mret l'
  | None => raise ValueError
  end.

(** The locals [conf] and [changed] after the [if]/[elif] of
    [setAutoStart]; [changed] has no binding before it. *)
Definition setAutoStart_update (conf : list string) (enable : bool)
  : M (list string * option bool) :=
  let currentlyEnabled := bool_decide (APP_KEY_NAME ∈ conf) in
  let changed : option bool := None in
  if enable && negb currentlyEnabled then
    mret ((conf ++ [APP_KEY_NAME])%list, Some true)
  else if negb enable then
    try_except
      (conf' ← py_remove conf APP_KEY_NAME;
       mret (conf', Some true))
      (fun e => if isValueError e then Some (mret (conf, changed)) else None)
  else mret (conf, changed).

Definition setAutoStart (hkey : Z) (enable : bool) : M unit :=
  conf ← _getAutoStartConfiguration hkey;
  '(conf, changed) ← setAutoStart_update conf enable;
  changed ← read_local changed;
  if changed : bool then
    k ← OpenKey hkey ROOT_KEY 0
          (Z.lor (Z.lor KEY_READ KEY_WRITE) KEY_WOW64_64KEY);
    SetValueEx k "Configuration" None REG_SZ (PyStr (PyStr.join "," conf))
  else mret tt.

(** *** The keyboard, as [winUser] reaches it *)

(** Modelled from the spec: [winUser.getAsyncKeyState], defined outside
    the two files embedded here, reports whether a key is held down.  It returns a SHORT
    whose most significant bit tells that the key is down and whose least
    significant bit that it was pressed since the previous query (which
    the query resets). *)
Definition getAsyncKeyState (vk : Z) : M Z :=
  fun w =>
    (Ok ((if bool_decide (vk ∈ keysDown w) then -32768 else 0)
         + (if bool_decide (vk ∈ keysRecent w) then 1 else 0)),
     mkWorld (registry w) (keysDown w) (keysRecent w ∖ {[vk]})
             (sentInputs w) (logged w)).

Section Notify.

(** Constants of [winUser], a module of NVDA outside the two files
    embedded here: taken as parameters. *)
Variables VK_SHIFT VK_CONTROL VK_MENU : Z.
Variables INPUT_KEYBOARD KEYEVENTF_KEYUP : Z.

(** Modelled from the spec: what one synthesized keyboard event does to
    the pressed/released state of its key; an event is a key-up when its
    flags hold [KEYEVENTF_KEYUP] and a key-down otherwise. *)
Definition applyInput (down : gset Z) (i : Input) : gset Z :=
  if negb (type_ i =? INPUT_KEYBOARD) then down
  else if Z.land (dwFlags i) KEYEVENTF_KEYUP =? 0
       then {[wVk i]} ∪ down
       else down ∖ {[wVk i]}.

Definition applyInputs (inputs : list Input) (down : gset Z) : gset Z :=
  fold_left applyInput inputs down.

Definition pressedBy (inputs : list Input) : gset Z :=
  list_to_set (map wVk (filter (fun i => Z.land (dwFlags i) KEYEVENTF_KEYUP = 0) inputs)).

(** Modelled from the spec: [winUser.SendInput], defined outside the two
    files embedded here, sends the synthesized events: they are recorded,
    in order, and take effect on the keys. *)
Definition SendInput (inputs : list Input) : M unit :=
  fun w =>
    (Ok tt,
     mkWorld (registry w) (applyInputs inputs (keysDown w))
             (keysRecent w ∪ pressedBy inputs)
             (sentInputs w ++ [inputs])%list (logged w)).

(** The first loop of [notify]: the modifiers the user holds are
    queued to be released. *)
Fixpoint unwanted_modifiers (vks : list Z) (keys : list (Z * bool))
  : M (list (Z * bool)) :=
  match vks with
  | [] => mret keys
  | vk :: rest =>
      state ← getAsyncKeyState vk;
      unwanted_modifiers rest
        (if Z.land state 32768 =? 0 then keys else (keys ++ [(vk, false)])%list)
  end.

Definition notify (signal : PyValue) : M unit :=
  registered ← isRegistered;
  if negb registered then mret tt
  else
    rkey ← CreateKey HKEY_CURRENT_USER
             "Software\Microsoft\Windows NT\CurrentVersion\AccessibilityTemp";
    SetValueEx rkey APP_KEY_NAME None REG_DWORD signal;;
    keys ← unwanted_modifiers [VK_SHIFT; VK_CONTROL; VK_MENU] [];
    let keys := (keys ++ [(0x5B, true)])%list in   (* leftWindows *)
    let keys := (keys ++ [(0x55, true)])%list in   (* u *)
    (* Release unwanted keys and press desired keys. *)
    let inputs :=
      map (fun '(vk, desired) =>
             mkInput INPUT_KEYBOARD vk
                     (if negb desired then KEYEVENTF_KEYUP else 0))
          keys in
    (* Release desired keys and press unwanted keys. *)
    let inputs := (inputs ++
      map (fun '(vk, desired) =>
             mkInput INPUT_KEYBOARD vk
                     (if desired : bool then KEYEVENTF_KEYUP else 0))
          (rev keys))%list in
    SendInput inputs.

(** The events the two loops of [notify] build from its list [keys]. *)
Definition notify_inputs (keys : list (Z * bool)) : list Input :=
  (map (fun '(vk, desired) =>
          mkInput INPUT_KEYBOARD vk (if negb desired then KEYEVENTF_KEYUP else 0))
       keys
   ++ map (fun '(vk, desired) =>
             mkInput INPUT_KEYBOARD vk (if desired : bool then KEYEVENTF_KEYUP else 0))
          (rev keys))%list.

(** *** The key chord as the specification words it *)

Definition keyUp (vk : Z) : Input := mkInput INPUT_KEYBOARD vk KEYEVENTF_KEYUP.
Definition keyDown (vk : Z) : Input := mkInput INPUT_KEYBOARD vk 0.

(** For the set [down] of held keys: the held modifiers are released in
    the order shift, control, alt; leftWindows and U are pressed, then
    released; the held modifiers are pressed again in the order alt,
    control, shift. *)
Definition chord_sequence (down : gset Z) : list Input :=
  (map keyUp (filter (fun vk => vk ∈ down) [VK_SHIFT; VK_CONTROL; VK_MENU])
   ++ [keyDown 0x5B; keyDown 0x55]
   ++ [keyUp 0x55; keyUp 0x5B]
   ++ map keyDown (filter (fun vk => vk ∈ down) [VK_MENU; VK_CONTROL; VK_SHIFT]))%list.

End Notify.

(** *** Vocabulary of the statements about the registry *)

Definition READ_ACCESS : Z := Z.lor KEY_READ KEY_WOW64_64KEY.
Definition WRITE_ACCESS : Z := Z.lor (Z.lor KEY_READ KEY_WRITE) KEY_WOW64_64KEY.
Definition TEMP_KEY : string :=
  "Software\Microsoft\Windows NT\CurrentVersion\AccessibilityTemp".

(** [del conf[0]] when the first element is empty *)
Definition strip_empty_head (l : list string) : list string :=
  match l with
  | EmptyString :: rest => rest
  | _ => l
  end.

(** how often [x] occurs in [l] *)
Definition occurrences (x : string) (l : list string) : nat :=
  length (filter (fun y => y = x) l).

(** no element holds a comma *)
Definition config_free (l : list string) : Prop :=
  Forall (fun f => PyStr.free_of "," f = true) l.

(** The write phase of [setAutoStart]. *)
Definition write_configuration (hkey : Z) (conf : list string) : M unit :=
  k ← OpenKey hkey ROOT_KEY 0 WRITE_ACCESS;
  SetValueEx k "Configuration" None REG_SZ (PyStr (PyStr.join "," conf)).

Definition with_configuration (s : string) (k : RegKey) : RegKey :=
  mkRegKey (granted k) (<["Configuration" := (PyStr s, REG_SZ)]> (values k)).

(** whether a call returned *)
Definition opens {A} (r : result A) : bool :=
  match r with Ok _ => true | Raise _ => false end.

(** Concrete worlds: a registry whose only key is the Accessibility root
    key under [hkey], with the given rights and "Configuration" string;
    and the world with an empty registry. *)
Definition registry_with (hkey : Z) (grant : Z) (conf : string) : World :=
  mkWorld {[ (hkey, ROOT_KEY) :=
               mkRegKey grant {[ "Configuration" := (PyStr conf, REG_SZ) ]} ]}
          ∅ ∅ [] [].
Definition empty_world : World := mkWorld ∅ ∅ ∅ [] [].

(** A world in which NVDA is registered as an assistive technology and
    the user holds the keys [down]. *)
Definition registered_world (down : gset Z) : World :=
  mkWorld {[ (HKEY_LOCAL_MACHINE, APP_KEY_PATH) := mkRegKey KEY_READ ∅ ]}
          down ∅ [] [].

(** ** source/appModules/outlook.py *)

#[global] Instance result_ret : MRet result := @Ok.
#[global] Instance result_bind : MBind result :=
  fun A B f r => match r with Ok a => f a | Raise e => Raise e end.
#[global] Instance result_fmap : FMap result :=
  fun A B f r => match r with Ok a => Ok (f a) | Raise e => Raise e end.

(** [datetime.date] and [datetime.datetime] *)
Record date : Type := mkDate {
  year : Z;
  month : Z;
  day : Z
}.

#[global] Instance date_eq_dec : EqDecision date.
Proof. solve_decision. Defined.

Record datetime : Type := mkDatetime {
  dt_year : Z;
  dt_month : Z;
  dt_day : Z;
  dt_hour : Z;
  dt_minute : Z;
  dt_second : Z
}.

(** [datetime.date()] *)
Definition date_of (t : datetime) : date :=
  mkDate (dt_year t) (dt_month t) (dt_day t).

(** [try: x = read except COMError: x = default] *)
Definition com_guard {A} (read : result A) (default : A) : result A :=
  match read with
  | Raise COMError => Ok default
  | other => other
  end.

(** The properties [_get_name] reads from the selected Outlook item;
    each read goes through COM and either yields its value or raises. *)
Record Selection : Type := mkSelection {
  unread : result bool;
  attachments_count : result Z;       (* selection.attachments.count *)
  importance : result Z;
  messageClass : result string
}.

(** A COM read yields its value or raises [COMError]. *)
Definition com_outcome {A} (r : result A) : Prop :=
  match r with Ok _ => True | Raise e => e = COMError end.

(** The value a guarded read leaves in its variable. *)
Definition read_or {A} (default : A) (r : result A) : A :=
  match r with Ok v => v | Raise _ => default end.

Section Outlook.

(** *** Names of the host runtime that the module uses, defined outside
    the two files embedded here: taken as parameters. *)

(** [winKernel] *)
Variables LOCALE_USER_DEFAULT TIME_NOSECONDS DATE_LONGDATE : Z.
Variable GetTimeFormat : Z -> Z -> datetime -> option string -> string.
Variable GetDateFormat : Z -> Z -> datetime -> option string -> string.

(** [controlTypes] *)
Variables ROLE_UNKNOWN ROLE_EDITABLETEXT ROLE_PANE : Z.
Variables ROLE_MENUBAR ROLE_MENUITEM : Z.
Variables ROLE_TREEVIEW ROLE_TREEVIEWITEM ROLE_LIST ROLE_LISTITEM : Z.
Variable ROLE_GRAPHIC : Z.
Variables STATE_EXPANDED STATE_COLLAPSED : Z.
Variable stateLabels : Z -> string.

(** gettext's [_] *)
Variable tr : string -> string.

(** Host objects (windows, [None]) and [Window._get_parent]. *)
Variable PyObject : Type.
Variable Window_get_parent : PyObject -> PyObject.

(** *** CalendarView *)

(** [_generateTimeRangeText]; the class variable [_lastStartDate] is
    passed in and its new value returned with the text. *)
Definition _generateTimeRangeText (_lastStartDate : option date)
    (startTime endTime : datetime) : string * option date :=
  let startText :=
    GetTimeFormat LOCALE_USER_DEFAULT TIME_NOSECONDS startTime None in
  let endText :=
    GetTimeFormat LOCALE_USER_DEFAULT TIME_NOSECONDS endTime None in
  let startDate := date_of startTime in
  let endDate := date_of endTime in
  let startText :=
    if match _lastStartDate with
       | None => true                 (* not CalendarView._lastStartDate *)
       | Some last => negb (bool_decide (startDate = last))
       end
       || negb (bool_decide (endDate = startDate))
    then GetDateFormat LOCALE_USER_DEFAULT DATE_LONGDATE startTime None
           +:+ " " +:+ startText
    else startText in
  let endText :=
    if negb (bool_decide (endDate = startDate))
    then GetDateFormat LOCALE_USER_DEFAULT DATE_LONGDATE endTime None
           +:+ " " +:+ endText
    else endText in
  (startText +:+ " to " +:+ endText, Some startDate).

(** *** UIAGridRow *)

Definition importanceLabels (importance : Z) : option string :=
  if importance =? 2 then Some (tr "high importance")
  else if importance =? 0 then Some (tr "low importance")
  else None.

Record Child : Type := mkChild {
  isUIAGridRow : bool;                  (* isinstance(child,UIAGridRow) *)
  child_role : Z;
  child_name : option string;
  child_columnHeaderText : option string
}.

Record UIAGridRow : Type := mkUIAGridRow {
  states : list Z;
  (** [None] when [appModule.nativeOm] is missing, otherwise the outcome
      of [nativeOm.activeExplorer().selection.item(1)] *)
  nativeOm_selection : option (result Selection);
  children : list Child;
  reportTableHeaders : bool   (* config.conf['documentFormatting'][...] *)
}.

(** Python truthiness of an optional string *)
Definition truthy_opt (s : option string) : bool :=
  match s with Some s => PyStr.truthy s | None => false end.

(** The part of [_get_name] run when an item is selected. *)
Definition selection_texts (selection : Selection) (textList : list string)
  : result (list string) :=
  unread ← com_guard (unread selection) false;
  let textList :=
    if unread : bool then (textList ++ [tr "unread"])%list else textList in
  attachmentCount ← com_guard (attachments_count selection) 0;
  let textList :=
    if attachmentCount >? 0 then (textList ++ [tr "has attachment"])%list
    else textList in
  importance ← com_guard (importance selection) 1;
  let importanceLabel := importanceLabels importance in
  let textList :=
    match importanceLabel with
    | Some label =>
        if PyStr.truthy label then (textList ++ [label])%list else textList
    | None => textList
    end in
  messageClass ← com_guard (Some <$> messageClass selection) None;
  let textList :=
    if bool_decide (messageClass = Some "IPM.Schedule.Meeting.Request")
    then (textList ++ [tr "meeting request"])%list
    else textList in
  mret textList.

(** The loop of [_get_name] over the children. *)
Fixpoint children_texts (reportHeaders : bool) (cs : list Child)
    (textList : list string) : list string :=
  match cs with
  | [] => textList
  | child :: rest =>
      if isUIAGridRow child || (child_role child =? ROLE_GRAPHIC)
         || negb (truthy_opt (child_name child))
      then children_texts reportHeaders rest textList
      else
        let name := default "" (child_name child) in
        let text :=
          if reportHeaders && truthy_opt (child_columnHeaderText child)
          then default "" (child_columnHeaderText child) +:+ " " +:+ name
          else name in
        if PyStr.truthy text
        then children_texts reportHeaders rest (textList ++ [text +:+ ","])%list
        else children_texts reportHeaders rest textList
  end.

Definition _get_name (self : UIAGridRow) : result string :=
  let textList : list string := [] in
  let textList :=
    if bool_decide (STATE_EXPANDED ∈ states self)
    then (textList ++ [stateLabels STATE_EXPANDED])%list
    else if bool_decide (STATE_COLLAPSED ∈ states self)
    then (textList ++ [stateLabels STATE_COLLAPSED])%list
    else textList in
  selection ← match nativeOm_selection self with
              | Some item => com_guard (Some <$> item) None
              | None => mret None
              end;
  textList ← match selection with
             | Some selection => selection_texts selection textList
             | None => mret textList
             end;
  mret (PyStr.join " " (children_texts (reportTableHeaders self)
                                        (children self) textList)).

(** *** AppModule *)

Record NVDAObject : Type := mkNVDAObject {
  this : PyObject;                      (* the object itself *)
  isMSHTML : bool;                      (* isinstance(obj,MSHTML) *)
  role : Z;
  windowClassName : string;
  windowControlID : Z;
  parent : PyObject;
  description : option string;
  shouldAllowIAccessibleFocusEvent : bool
}.

Definition set_parent (p : PyObject) (o : NVDAObject) : NVDAObject :=
  mkNVDAObject (this o) (isMSHTML o) (role o) (windowClassName o)
    (windowControlID o) p (description o)
    (shouldAllowIAccessibleFocusEvent o).
Definition set_description (d : option string) (o : NVDAObject) : NVDAObject :=
  mkNVDAObject (this o) (isMSHTML o) (role o) (windowClassName o)
    (windowControlID o) (parent o) d (shouldAllowIAccessibleFocusEvent o).
Definition set_shouldAllowIAccessibleFocusEvent (b : bool) (o : NVDAObject)
  : NVDAObject :=
  mkNVDAObject (this o) (isMSHTML o) (role o) (windowClassName o)
    (windowControlID o) (parent o) (description o) b.
Definition set_role (r : Z) (o : NVDAObject) : NVDAObject :=
  mkNVDAObject (this o) (isMSHTML o) r (windowClassName o)
    (windowControlID o) (parent o) (description o)
    (shouldAllowIAccessibleFocusEvent o).

Definition event_NVDAObject_init (obj : NVDAObject) : NVDAObject :=
  let role := role obj in
  let windowClassName := windowClassName obj in
  let controlID := windowControlID obj in
  let obj :=
    if (role =? ROLE_EDITABLETEXT)
       && bool_decide (windowClassName = "RichEdit20W")
       && (controlID =? 8224)
    then set_parent (Window_get_parent (Window_get_parent (this obj))) obj
    else obj in
  let obj :=
    if bool_decide (windowClassName = "Internet Explorer_Server")
       && (role =? ROLE_PANE) && negb (isMSHTML obj)
    then set_parent (Window_get_parent (Window_get_parent (this obj))) obj
    else obj in
  let obj :=
    if bool_decide (role ∈ [ROLE_MENUBAR; ROLE_MENUITEM])
    then set_description None obj
    else obj in
  let obj :=
    if bool_decide (role ∈ [ROLE_TREEVIEW; ROLE_TREEVIEWITEM;
                            ROLE_LIST; ROLE_LISTITEM])
    then set_shouldAllowIAccessibleFocusEvent true obj
    else obj in
  let obj :=
    if ((bool_decide (windowClassName = "SUPERGRID") && (controlID =? 4704))
        || (bool_decide (windowClassName = "rctrl_renwnd32")
            && (controlID =? 109)))
       && (role =? ROLE_UNKNOWN)
    then set_role ROLE_LISTITEM obj
    else obj in
  obj.

End Outlook.

(** ** Further functions of [source/appModules/outlook.py] *)

Module PyChar.

(** The characters [str.isspace] counts as whitespace, among the code
    points below 256 (a [string] is read as Latin-1 text): tab to carriage
    return, the four separators 0x1C to 0x1F, space, next-line and
    no-break space. *)
Definition is_whitespace (c : ascii) : bool :=
  let n := Z.of_N (N_of_ascii c) in
  ((9 <=? n) && (n <=? 13)) || ((28 <=? n) && (n <=? 31))
  || (n =? 32) || (n =? 133) || (n =? 160).

Fixpoint all_whitespace (s : string) : bool :=
  match s with
  | EmptyString => true
  | String c rest => is_whitespace c && all_whitespace rest
  end.

(** [s.isspace()]: at least one character, and whitespace only *)
Definition isspace (s : string) : bool :=
  PyStr.truthy s && all_whitespace s.

(** [s.startswith(p)] *)
Definition startswith (s p : string) : bool := String.prefix p s.

End PyChar.

(** The fields [getContactString] reads; COM hands over a string or
    [None]. *)
Record ContactItem : Type := mkContactItem {
  fullName : option string;
  companyName : option string;
  jobTitle : option string;
  email1address : option string
}.

(** [x and not x.isspace()] *)
Definition contact_field_kept (x : option string) : bool :=
  match x with
  | Some s => PyStr.truthy s && negb (PyChar.isspace s)
  | None => false
  end.

Definition getContactString (obj : ContactItem) : string :=
  PyStr.join ", "
    (omap (fun x => if contact_field_kept x then x else None)
          [fullName obj; companyName obj; jobTitle obj; email1address obj]).

(** The overlay classes of the module, and any class the list already
    holds. *)
Module Overlay.
Inductive cls : Type :=
  | UIAGridRow
  | MsoCommandBarToolBar
  | REListBox20W_CheckBox
  | AutoCompleteListItem
  | AddressBookEntry
  | MessageList_pre2003
  | SuperGridClient2010
  | CalendarView
  | Inherited (name : string).
End Overlay.

(** What [chooseNVDAObjectOverlayClasses] looks at in an object. *)
Record Candidate : Type := mkCandidate {
  cand_isUIA : bool;                        (* isinstance(obj,UIA) *)
  cand_cachedClassName : string;            (* obj.UIAElement.cachedClassName *)
  cand_isIAccessible : bool;                (* isinstance(obj,IAccessible) *)
  cand_role : Z;
  cand_windowClassName : string;
  cand_windowControlID : Z;
  cand_event_objectID : option Z;
  cand_event_childID : option Z
}.

Module MsoCommandBarToolBar.

(** [_get_name], from the name the base class gives *)
Definition _get_name (super_name : option string) : option string :=
  let name := super_name in
  (* #3407: overly verbose and programmatic toolbar label *)
  if match name with
     | Some n => PyStr.truthy n
                 && PyChar.startswith n "MSO Generic Control Container"
     | None => false
     end
  then Some ""
  else name.


End MsoCommandBarToolBar.

Section AppModule.

(** Names of [controlTypes] and [winUser], defined outside the two files
    embedded here: taken as parameters. *)
Variables ROLE_TOOLBAR ROLE_CHECKBOX ROLE_LISTITEM : Z.
Variable OBJID_CLIENT : Z.
Variable getClassName : Z -> string.


(** [chooseNVDAObjectOverlayClasses]; [clsList.insert(0,c)] puts [c] in
    front, and the list is returned in place of the mutation. *)
Definition chooseNVDAObjectOverlayClasses (outlookVersion : Z)
    (obj : Candidate) (clsList : list Overlay.cls) : list Overlay.cls :=
  (* Currently all our custom classes are IAccessible *)
  let clsList :=
    if cand_isUIA obj
       && bool_decide (cand_cachedClassName obj
                       ∈ ["LeafRow"; "ThreadItem"; "ThreadHeader"])
    then Overlay.UIAGridRow :: clsList
    else clsList in
  if negb (cand_isIAccessible obj) then clsList
  else
    let role := cand_role obj in
    let windowClassName := cand_windowClassName obj in
    let controlID := cand_windowControlID obj in
    let clsList :=
      if (windowClassName =? "MsoCommandBar")%string && (role =? ROLE_TOOLBAR)
      then Overlay.MsoCommandBarToolBar :: clsList
      else if (windowClassName =? "REListBox20W")%string
              && (role =? ROLE_CHECKBOX)
      then Overlay.REListBox20W_CheckBox :: clsList
      else if (role =? ROLE_LISTITEM)
              && (PyChar.startswith windowClassName "REListBox"
                  || PyChar.startswith windowClassName "NetUIHWND")
      then Overlay.AutoCompleteListItem :: clsList
      else clsList in
    if (role =? ROLE_LISTITEM) && (windowClassName =? "OUTEXVLB")%string
    then Overlay.AddressBookEntry :: clsList
    else
      let clsList :=
        if ((windowClassName =? "SUPERGRID")%string && (controlID =? 4704))
           || ((windowClassName =? "rctrl_renwnd32")%string && (controlID =? 109))
        then
          if negb (outlookVersion =? 0) && (outlookVersion <=? 9)
          then Overlay.MessageList_pre2003 :: clsList
          else if bool_decide (cand_event_objectID obj = Some OBJID_CLIENT)
                  && bool_decide (cand_event_childID obj = Some 0)
          then Overlay.SuperGridClient2010 :: clsList
          else clsList
        else clsList in
      let clsList :=
        if ((windowClassName =? "AfxWndW")%string && (controlID =? 109))
           || bool_decide (windowClassName ∈ ["WeekViewWnd"; "DayViewWnd"])
        then Overlay.CalendarView :: clsList
        else clsList in
      clsList.

End AppModule.

(** A contact field that shows nothing: [None], empty or whitespace. *)
Definition blank_field (x : option string) : Prop :=
  match x with
  | Some s => s = "" \/ PyChar.isspace s = true
  | None => True
  end.

(** A world whose registry holds the Accessibility root key under [hkey]
    with an integer "Configuration". *)
Definition registry_with_dword (hkey : Z) (grant : Z) (n : Z) : World :=
  mkWorld {[ (hkey, ROOT_KEY) :=
               mkRegKey grant {[ "Configuration" := (PyInt n, REG_DWORD) ]} ]}
          ∅ ∅ [] [].

(** A stored string whose first comma-separated field is not empty. *)
Definition head_nonempty (s : string) : Prop :=
  exists first rest, PyStr.split "," s = first :: rest /\ first <> "".

(** how many events of [inputs] are on key [vk] with flags [flags] *)
Definition count_events (vk flags : Z) (inputs : list Input) : nat :=
  length (filter (fun i => wVk i = vk /\ dwFlags i = flags) inputs).

Section ChildShown.
Variable ROLE_GRAPHIC : Z.

(** whether the loop of [_get_name] goes past its [continue] for a child *)
Definition child_shown (c : Child) : bool :=
  negb (isUIAGridRow c || (child_role c =? ROLE_GRAPHIC)
        || negb (truthy_opt (child_name c))).

End ChildShown.

(** * Properties *)

(** ** [split] and [join] *)

Module PyStrFacts.
Import PyStr.

Lemma split_nonempty sep s : split sep s <> [].
Proof.
  destruct s as [|c rest]; simpl; [discriminate|].
  destruct (Ascii.eqb c sep); [discriminate|].
  destruct (split sep rest); discriminate.
Qed.

(** No field of a split holds the separator. *)
Lemma split_free sep s : Forall (fun f => free_of sep f = true) (split sep s).
Proof.
  induction s as [|c rest IH]; simpl.
  - repeat constructor.
  - destruct (Ascii.eqb c sep) eqn:E.
    + constructor; [reflexivity | exact IH].
    + destruct (split sep rest) as [|f fs].
      * constructor; [simpl; rewrite E; reflexivity | constructor].
      * inversion IH; subst.
        constructor; [simpl; rewrite E; simpl; assumption | assumption].
Qed.

Lemma split_field sep x :
  free_of sep x = true -> split sep x = [x].
Proof.
  induction x as [|c x IH]; simpl; intros H; [reflexivity|].
  apply andb_prop in H as [Hc Hx].
  apply negb_true_iff in Hc. rewrite Hc, (IH Hx). reflexivity.
Qed.

Lemma split_cons sep x rest :
  free_of sep x = true ->
  split sep (x +:+ String sep rest) = x :: split sep rest.
Proof.
  induction x as [|c x IH]; simpl; intros H.
  - rewrite Ascii.eqb_refl. reflexivity.
  - apply andb_prop in H as [Hc Hx].
    apply negb_true_iff in Hc. rewrite Hc, (IH Hx). reflexivity.
Qed.

(** Splitting what was joined gives the list back, for a non-empty list
    of fields without the separator. *)
Lemma split_join sep l :
  l <> [] -> Forall (fun f => free_of sep f = true) l ->
  split sep (join (String sep EmptyString) l) = l.
Proof.
  induction l as [|x l IH]; intros Hne Hall; [congruence|].
  inversion Hall as [|? ? Hx Hl]; subst.
  destruct l as [|y l].
  - simpl. apply split_field, Hx.
  - change (join (String sep EmptyString) (x :: y :: l))
      with (x +:+ String sep (join (String sep EmptyString) (y :: l))).
    rewrite split_cons by assumption.
    rewrite IH; [reflexivity | discriminate | assumption].
Qed.

End PyStrFacts.

(** ** Lists of identifiers *)

Section RemoveFirst.
Variable x : string.

Lemma remove_first_None l : remove_first x l = None <-> x ∉ l.
Proof.
  induction l as [|y l IH]; simpl.
  - split; [intros _; apply not_elem_of_nil | reflexivity].
  - case_bool_decide as Hy.
    + split; [discriminate | intros Hn; exfalso; apply Hn; subst; left].
    + destruct (remove_first x l) as [l'|].
      * split; [discriminate|]. intros Hn. exfalso.
        apply not_elem_of_cons in Hn as [_ Hn]. apply IH in Hn. discriminate.
      * split; [|reflexivity]. intros _. apply not_elem_of_cons. split.
        -- congruence.
        -- apply IH. reflexivity.
Qed.

Lemma remove_first_occurrences l l' :
  remove_first x l = Some l' -> occurrences x l = S (occurrences x l').
Proof.
  unfold occurrences. revert l'. induction l as [|y l IH]; simpl; intros l' H.
  - discriminate.
  - case_bool_decide as Hy.
    + inversion H; subst. rewrite filter_cons_True by reflexivity. reflexivity.
    + destruct (remove_first x l) as [l0|]; [|discriminate].
      inversion H; subst.
      rewrite !filter_cons_False by assumption. apply IH. reflexivity.
Qed.

Lemma remove_first_Forall (P : string -> Prop) l l' :
  remove_first x l = Some l' -> Forall P l -> Forall P l'.
Proof.
  revert l'. induction l as [|y l IH]; simpl; intros l' H Hall.
  - discriminate.
  - inversion Hall; subst. case_bool_decide.
    + inversion H; subst. assumption.
    + destruct (remove_first x l) as [l0|]; [|discriminate].
      inversion H; subst. constructor; [assumption | apply IH; auto].
Qed.

Lemma occurrences_0 l : occurrences x l = 0%nat -> x ∉ l.
Proof.
  unfold occurrences. induction l as [|y l IH]; intros H.
  - apply not_elem_of_nil.
  - destruct (decide (y = x)) as [->|Hne].
    + rewrite filter_cons_True in H by reflexivity. discriminate.
    + rewrite filter_cons_False in H by assumption.
      apply not_elem_of_cons. split; [congruence | auto].
Qed.

End RemoveFirst.

Lemma strip_empty_head_free l : config_free l -> config_free (strip_empty_head l).
Proof.
  intros H. destruct l as [|[|c f] l]; simpl; try assumption.
  inversion H; assumption.
Qed.

Lemma elem_of_strip_empty_head x l :
  x <> EmptyString -> x ∈ strip_empty_head l <-> x ∈ l.
Proof.
  intros Hx. destruct l as [|[|c f] l]; simpl; try reflexivity.
  rewrite elem_of_cons. split; [auto|]. intros [->|H]; [congruence | assumption].
Qed.

(** Writing a list with [join] and reading it back with [split] and the
    removal of the leading empty string keeps the membership of a
    non-empty identifier. *)
Lemma elem_of_reread x conf :
  x <> EmptyString -> config_free conf ->
  x ∈ strip_empty_head (PyStr.split "," (PyStr.join "," conf)) <-> x ∈ conf.
Proof.
  intros Hx Hfree. destruct conf as [|y conf].
  - simpl. reflexivity.
  - rewrite PyStrFacts.split_join; [|discriminate|exact Hfree].
    apply elem_of_strip_empty_head, Hx.
Qed.

Lemma config_free_app conf :
  config_free conf -> config_free (conf ++ [APP_KEY_NAME]).
Proof.
  intros H. apply Forall_app. split; [assumption|].
  constructor; [reflexivity | constructor].
Qed.

Lemma APP_KEY_NAME_nonempty : APP_KEY_NAME <> EmptyString.
Proof. discriminate. Qed.

(** ** The registry operations of [easeOfAccess] *)

Ltac unfold_M :=
  unfold mbind, M_bind, bind, mret, M_ret, ret, raise, try_except,
    log_debug, log_error, log_write, read_local in *.

(** An access mask whose rights are among those of a granted mask is
    granted as well. *)
Lemma access_ok_weaken grant a b :
  Z.land (requested_rights a) (requested_rights b) = requested_rights a ->
  access_ok grant b = true -> access_ok grant a = true.
Proof.
  unfold access_ok. intros Hsub Hb.
  apply Z.eqb_eq in Hb. apply Z.eqb_eq.
  rewrite <- Hsub, Z.ldiff_land, <- Z.land_assoc, <- Z.ldiff_land, Hb.
  apply Z.land_0_r.
Qed.

Lemma write_access_reads grant :
  access_ok grant WRITE_ACCESS = true -> access_ok grant READ_ACCESS = true.
Proof. apply access_ok_weaken. reflexivity. Qed.

Lemma isRegistered_unfold w :
  isRegistered w =
  match registry w !! (HKEY_LOCAL_MACHINE, APP_KEY_PATH) with
  | None => (Ok false, snd (log_debug "Unable to find AT registry key" w))
  | Some k =>
      if access_ok (granted k) READ_ACCESS then (Ok true, w)
      else (Ok false, snd (log_error "Unable to open AT registry key" w))
  end.
Proof.
  unfold isRegistered, OpenKey. unfold_M. fold READ_ACCESS.
  destruct (registry w !! (HKEY_LOCAL_MACHINE, APP_KEY_PATH)) as [k|]; [|reflexivity].
  destruct (access_ok (granted k) READ_ACCESS); reflexivity.
Qed.

Lemma isRegistered_frame w :
  let w' := snd (isRegistered w) in
  registry w' = registry w /\ keysDown w' = keysDown w /\
  keysRecent w' = keysRecent w /\ sentInputs w' = sentInputs w.
Proof.
  rewrite isRegistered_unfold.
  destruct (registry w !! (HKEY_LOCAL_MACHINE, APP_KEY_PATH)) as [k|]; [|simpl; auto].
  destruct (access_ok (granted k) READ_ACCESS); simpl; auto.
Qed.

Section GetConf.
Variables (hkey : Z) (w : World).

(** [_getAutoStartConfiguration] by the state of the registry. *)
Lemma getconf_unfold :
  _getAutoStartConfiguration hkey w =
  match registry w !! (hkey, ROOT_KEY) with
  | None =>
      (Ok [], snd (log_debug "Unable to find existing auto start registry key" w))
  | Some k =>
      if access_ok (granted k) READ_ACCESS then
        match values k !! "Configuration" with
        | None =>
            (Ok [], snd (log_debug "Unable to find auto start configuration" w))
        | Some (PyStr s, _) => (Ok (strip_empty_head (PyStr.split "," s)), w)
        | Some (PyInt _, _) => (Raise AttributeError, w)
        end
      else
        (Ok [], snd (log_error "Unable to open auto start registry key for reading" w))
  end.
Proof.
  unfold _getAutoStartConfiguration, OpenKey, QueryValueEx, py_split, py_index0.
  unfold_M. fold READ_ACCESS.
  destruct (registry w !! (hkey, ROOT_KEY)) as [k|] eqn:Hk; [|reflexivity].
  destruct (access_ok (granted k) READ_ACCESS); [|reflexivity].
  cbn [h_access h_root h_path]. rewrite Hk.
  change (negb (Z.land READ_ACCESS KEY_QUERY_VALUE =? KEY_QUERY_VALUE)) with false.
  cbn iota.
  destruct (values k !! "Configuration") as [[[s|n] ty]|]; try reflexivity.
  cbn [fst]. pose proof (PyStrFacts.split_nonempty "," s) as Hne.
  destruct (PyStr.split "," s) as [|f fs]; [congruence|].
  destruct f; reflexivity.
Qed.

Lemma getconf_frame :
  let w' := snd (_getAutoStartConfiguration hkey w) in
  registry w' = registry w /\ keysDown w' = keysDown w /\
  keysRecent w' = keysRecent w /\ sentInputs w' = sentInputs w.
Proof.
  rewrite getconf_unfold.
  destruct (registry w !! (hkey, ROOT_KEY)) as [k|]; [|simpl; auto].
  destruct (access_ok (granted k) READ_ACCESS); [|simpl; auto].
  destruct (values k !! "Configuration") as [[[s|n] ty]|]; simpl; auto.
Qed.


Lemma getconf_str k s ty :
  registry w !! (hkey, ROOT_KEY) = Some k ->
  access_ok (granted k) READ_ACCESS = true ->
  values k !! "Configuration" = Some (PyStr s, ty) ->
  fst (_getAutoStartConfiguration hkey w)
  = Ok (strip_empty_head (PyStr.split "," s)).
Proof. intros H Ha Hv. rewrite getconf_unfold, H, Ha, Hv. reflexivity. Qed.

(** What is read is a list of comma-free fields. *)
Lemma getconf_free conf :
  fst (_getAutoStartConfiguration hkey w) = Ok conf -> config_free conf.
Proof.
  rewrite getconf_unfold.
  destruct (registry w !! (hkey, ROOT_KEY)) as [k|];
    [|intros H; inversion H; constructor].
  destruct (access_ok (granted k) READ_ACCESS);
    [|intros H; inversion H; constructor].
  destruct (values k !! "Configuration") as [[[s|n] ty]|];
    intros H; inversion H; subst.
  - apply strip_empty_head_free, PyStrFacts.split_free.
  - constructor.
Qed.


Lemma willAutoStart_fst conf :
  fst (_getAutoStartConfiguration hkey w) = Ok conf ->
  fst (willAutoStart hkey w) = Ok (bool_decide (APP_KEY_NAME ∈ conf)).
Proof.
  unfold willAutoStart. unfold_M.
  destruct (_getAutoStartConfiguration hkey w) as [[c|e] w1]; simpl;
    intros H; inversion H; subst. reflexivity.
Qed.

End GetConf.

(** ** [setAutoStart] *)

Lemma setAutoStart_update_pure conf enable w :
  setAutoStart_update conf enable w =
  (Ok (if enable
       then if bool_decide (APP_KEY_NAME ∈ conf) then (conf, None)
            else ((conf ++ [APP_KEY_NAME])%list, Some true)
       else match remove_first APP_KEY_NAME conf with
            | Some conf' => (conf', Some true)
            | None => (conf, None)
            end), w).
Proof.
  unfold setAutoStart_update, py_remove. unfold_M.
  destruct enable; simpl.
  - destruct (bool_decide (APP_KEY_NAME ∈ conf)); reflexivity.
  - destruct (remove_first APP_KEY_NAME conf); reflexivity.
Qed.

Lemma write_configuration_ok hkey conf w :
  fst (write_configuration hkey conf w) = Ok tt ->
  exists k,
    registry w !! (hkey, ROOT_KEY) = Some k /\
    access_ok (granted k) WRITE_ACCESS = true /\
    registry (snd (write_configuration hkey conf w))
    = <[(hkey, ROOT_KEY) := with_configuration (PyStr.join "," conf) k]> (registry w).
Proof.
  unfold write_configuration, OpenKey, SetValueEx. unfold_M.
  destruct (registry w !! (hkey, ROOT_KEY)) as [k|] eqn:Hk; simpl; [|discriminate].
  destruct (access_ok (granted k) WRITE_ACCESS) eqn:Ha; simpl; [|discriminate].
  rewrite Hk. simpl. intros _. exists k. auto.
Qed.


(** [setAutoStart], step by step: the read, the update of the locals, the
    read of [changed], the write. *)
Lemma setAutoStart_unfold hkey enable w :
  setAutoStart hkey enable w =
  match _getAutoStartConfiguration hkey w with
  | (Ok conf, w1) =>
      match (if enable
             then if bool_decide (APP_KEY_NAME ∈ conf) then (conf, None)
                  else ((conf ++ [APP_KEY_NAME])%list, Some true)
             else match remove_first APP_KEY_NAME conf with
                  | Some conf' => (conf', Some true)
                  | None => (conf, None)
                  end) with
      | (_, None) => (Raise UnboundLocalError, w1)
      | (conf', Some true) => write_configuration hkey conf' w1
      | (_, Some false) => (Ok tt, w1)
      end
  | (Raise e, w1) => (Raise e, w1)
  end.
Proof.
  unfold setAutoStart. unfold mbind at 1. unfold M_bind, bind.
  destruct (_getAutoStartConfiguration hkey w) as [[conf|e] w1]; [|reflexivity].
  unfold mbind at 1. unfold M_bind, bind.
  rewrite setAutoStart_update_pure.
  destruct enable.
  - destruct (bool_decide (APP_KEY_NAME ∈ conf)); reflexivity.
  - destruct (remove_first APP_KEY_NAME conf); reflexivity.
Qed.

(** After a successful write of [conf], the identifier is read back as a
    member exactly when it is one of [conf]. *)
Lemma willAutoStart_after_write hkey conf w :
  config_free conf ->
  fst (write_configuration hkey conf w) = Ok tt ->
  fst (willAutoStart hkey (snd (write_configuration hkey conf w)))
  = Ok (bool_decide (APP_KEY_NAME ∈ conf)).
Proof.
  intros Hfree Hok.
  destruct (write_configuration_ok _ _ _ Hok) as (k & Hk & Ha & Hreg).
  erewrite willAutoStart_fst.
  2: { eapply getconf_str with (k := with_configuration _ k).
       - rewrite Hreg. apply lookup_insert_eq.
       - simpl. apply write_access_reads, Ha.
       - simpl. apply lookup_insert_eq. }
  f_equal. apply bool_decide_ext.
  apply elem_of_reread; [apply APP_KEY_NAME_nonempty | assumption].
Qed.

(** C1 (as amended): whenever [setAutoStart hkey b] returns without
    raising, on a registry whose configuration list holds the identifier
    "nvda_nvda_v1" at most once (the proviso matters for [b = false]
    only), [willAutoStart hkey] afterwards returns [b]. *)
Theorem setAutoStart_then_willAutoStart hkey b w conf :
  fst (_getAutoStartConfiguration hkey w) = Ok conf ->
  (b = false -> (occurrences APP_KEY_NAME conf <= 1)%nat) ->
  fst (setAutoStart hkey b w) = Ok tt ->
  fst (willAutoStart hkey (snd (setAutoStart hkey b w))) = Ok b.
Proof.
  intros Hconf Honce. rewrite setAutoStart_unfold.
  pose proof (getconf_free hkey w conf Hconf) as Hfree.
  destruct (_getAutoStartConfiguration hkey w) as [[c|e] w1];
    simpl in Hconf; inversion Hconf; subst c.
  destruct b.
  - case_bool_decide as Hin; [discriminate|].
    intros Hok.
    rewrite willAutoStart_after_write; [|apply config_free_app, Hfree|exact Hok].
    f_equal. apply bool_decide_eq_true. apply elem_of_app. right. left.
  - destruct (remove_first APP_KEY_NAME conf) as [conf'|] eqn:Hrm; [|discriminate].
    intros Hok. rewrite willAutoStart_after_write;
      [|eapply remove_first_Forall; eassumption|exact Hok].
    f_equal. apply bool_decide_eq_false. apply occurrences_0.
    apply remove_first_occurrences in Hrm. specialize (Honce eq_refl). lia.
Qed.

Lemma setAutoStart_then_willAutoStart_witness :
  let w := registry_with HKEY_CURRENT_USER KEY_ALL_ACCESS "narrator,nvda_nvda_v1" in
  fst (_getAutoStartConfiguration HKEY_CURRENT_USER w)
  = Ok ["narrator"; "nvda_nvda_v1"]
  /\ (occurrences APP_KEY_NAME ["narrator"; "nvda_nvda_v1"] <= 1)%nat
  /\ fst (setAutoStart HKEY_CURRENT_USER false w) = Ok tt
  /\ fst (willAutoStart HKEY_CURRENT_USER
            (snd (setAutoStart HKEY_CURRENT_USER false w))) = Ok false.
Proof.
  intros w.
  assert (H1 : fst (_getAutoStartConfiguration HKEY_CURRENT_USER w)
               = Ok ["narrator"; "nvda_nvda_v1"]) by (vm_compute; reflexivity).
  assert (H2 : (occurrences APP_KEY_NAME ["narrator"; "nvda_nvda_v1"] <= 1)%nat)
    by (vm_compute; lia).
  assert (H3 : fst (setAutoStart HKEY_CURRENT_USER false w) = Ok tt)
    by (vm_compute; reflexivity).
  split; [exact H1|]. split; [exact H2|]. split; [exact H3|].
  exact (setAutoStart_then_willAutoStart HKEY_CURRENT_USER false w
           ["narrator"; "nvda_nvda_v1"] H1 (fun _ => H2) H3).
Defined.

(** C1 as stated fails: with the identifier stored twice,
    [setAutoStart hkey False] returns normally, having removed the first
    occurrence only, and [willAutoStart hkey] still returns [True]. *)
Lemma setAutoStart_duplicate_counterexample :
  let w := registry_with HKEY_CURRENT_USER KEY_ALL_ACCESS
             "nvda_nvda_v1,nvda_nvda_v1" in
  ~ (fst (setAutoStart HKEY_CURRENT_USER false w) = Ok tt ->
     fst (willAutoStart HKEY_CURRENT_USER
            (snd (setAutoStart HKEY_CURRENT_USER false w))) = Ok false).
Proof.
  intros w H.
  assert (Hok : fst (setAutoStart HKEY_CURRENT_USER false w) = Ok tt)
    by (vm_compute; reflexivity).
  apply H in Hok. vm_compute in Hok. discriminate.
Qed.

(** When the wanted state already holds, the [if]/[elif] assigns nothing
    to [changed], and reading it raises; the registry is not written. *)
Lemma setAutoStart_no_change_raises hkey enable w conf :
  fst (_getAutoStartConfiguration hkey w) = Ok conf ->
  bool_decide (APP_KEY_NAME ∈ conf) = enable ->
  fst (setAutoStart hkey enable w) = Raise UnboundLocalError /\
  registry (snd (setAutoStart hkey enable w)) = registry w.
Proof.
  intros Hconf Hstate. rewrite setAutoStart_unfold.
  pose proof (getconf_frame hkey w) as (Hreg & _).
  destruct (_getAutoStartConfiguration hkey w) as [[c|e] w1];
    simpl in *; inversion Hconf; subst c.
  destruct enable.
  - rewrite Hstate. simpl. auto.
  - apply bool_decide_eq_false in Hstate. apply remove_first_None in Hstate.
    rewrite Hstate. simpl. auto.
Qed.

(** C2 (the code departs from it): on a registry whose configuration is
    "nvda_nvda_v1", so that auto-start is already enabled,
    [setAutoStart hkey True] writes nothing, as the claim says, but does
    not complete: it raises [UnboundLocalError]. *)
Theorem setAutoStart_already_enabled_raises :
  let w := registry_with HKEY_CURRENT_USER KEY_ALL_ACCESS "nvda_nvda_v1" in
  fst (willAutoStart HKEY_CURRENT_USER w) = Ok true /\
  fst (setAutoStart HKEY_CURRENT_USER true w) = Raise UnboundLocalError /\
  registry (snd (setAutoStart HKEY_CURRENT_USER true w)) = registry w.
Proof.
  intros w. split; [vm_compute; reflexivity|].
  apply (setAutoStart_no_change_raises _ _ _ ["nvda_nvda_v1"]);
    vm_compute; reflexivity.
Qed.

(** ** Errors of the registry *)




(** C4: [isRegistered] returns [True] exactly when [OpenKey] on
    HKEY_LOCAL_MACHINE with the fixed path
    Software\Microsoft\Windows NT\CurrentVersion\Accessibility\ATs\nvda_nvda_v1
    returns, and [False], without raising, when it raises. *)
Theorem isRegistered_iff_key_opens w :
  APP_KEY_PATH
  = "Software\Microsoft\Windows NT\CurrentVersion\Accessibility\ATs\nvda_nvda_v1"
  /\ fst (isRegistered w)
     = Ok (opens (fst (OpenKey HKEY_LOCAL_MACHINE
             "Software\Microsoft\Windows NT\CurrentVersion\Accessibility\ATs\nvda_nvda_v1"
             0 (Z.lor KEY_READ KEY_WOW64_64KEY) w))).
Proof.
  split; [reflexivity|].
  rewrite isRegistered_unfold. unfold OpenKey.
  change "Software\Microsoft\Windows NT\CurrentVersion\Accessibility\ATs\nvda_nvda_v1"
    with APP_KEY_PATH.
  fold READ_ACCESS.
  destruct (registry w !! (HKEY_LOCAL_MACHINE, APP_KEY_PATH)) as [k|]; [|reflexivity].
  destruct (access_ok (granted k) READ_ACCESS); reflexivity.
Qed.



(** ** [notify] *)

Lemma CreateKey_frame key sub w :
  keysDown (snd (CreateKey key sub w)) = keysDown w /\
  sentInputs (snd (CreateKey key sub w)) = sentInputs w.
Proof.
  unfold CreateKey. destruct (registry w !! (key, sub)) as [k|]; [|simpl; auto].
  destruct (access_ok (granted k) KEY_WRITE); simpl; auto.
Qed.

Lemma SetValueEx_frame h name reserved type value w :
  keysDown (snd (SetValueEx h name reserved type value w)) = keysDown w /\
  sentInputs (snd (SetValueEx h name reserved type value w)) = sentInputs w.
Proof.
  unfold SetValueEx. destruct (convert_data type value); [|simpl; auto].
  destruct (negb _); [simpl; auto|].
  destruct (registry w !! (h_root h, h_path h)); simpl; auto.
Qed.

(** [state & 32768] looks at the key-down bit only. *)
Lemma key_state_high_bit (down recent : bool) :
  (Z.land ((if down then -32768 else 0) + (if recent then 1 else 0)) 32768 =? 0)
  = negb down.
Proof. destruct down, recent; reflexivity. Qed.

Section NotifyFacts.
Variables VK_SHIFT VK_CONTROL VK_MENU : Z.
Variables INPUT_KEYBOARD KEYEVENTF_KEYUP : Z.

Abbreviation notify_ :=
  (notify VK_SHIFT VK_CONTROL VK_MENU INPUT_KEYBOARD KEYEVENTF_KEYUP).
Abbreviation chord_sequence_ :=
  (chord_sequence VK_SHIFT VK_CONTROL VK_MENU INPUT_KEYBOARD KEYEVENTF_KEYUP).
Abbreviation applyInputs_ := (applyInputs INPUT_KEYBOARD KEYEVENTF_KEYUP).

(** The first loop queues the held modifiers, in the order of the list
    it walks, and touches neither the registry nor the keys. *)
Lemma unwanted_modifiers_spec vks : forall keys w,
  fst (unwanted_modifiers vks keys w)
  = Ok (keys ++ map (fun vk => (vk, false))
                    (filter (fun vk => vk ∈ keysDown w) vks))%list
  /\ registry (snd (unwanted_modifiers vks keys w)) = registry w
  /\ keysDown (snd (unwanted_modifiers vks keys w)) = keysDown w
  /\ sentInputs (snd (unwanted_modifiers vks keys w)) = sentInputs w
  /\ logged (snd (unwanted_modifiers vks keys w)) = logged w.
Proof.
  induction vks as [|vk vks IH]; intros keys w.
  - simpl. rewrite app_nil_r. auto.
  - cbn [unwanted_modifiers]. unfold mbind, M_bind, bind, getAsyncKeyState.
    cbn beta iota.
    match goal with |- context [unwanted_modifiers vks ?k ?w'] =>
      specialize (IH k w'); destruct (unwanted_modifiers vks k w') as [r w2] end.
    cbn [fst snd registry keysDown sentInputs logged] in *.
    destruct IH as (-> & -> & -> & -> & ->).
    repeat split; try reflexivity.
    f_equal. rewrite filter_cons, key_state_high_bit.
    destruct (decide (vk ∈ keysDown w)) as [Hd|Hd].
    + rewrite (bool_decide_eq_true_2 _ Hd). cbn. rewrite <- app_assoc. reflexivity.
    + rewrite (bool_decide_eq_false_2 _ Hd). reflexivity.
Qed.

(** The events built from the queue are the chord of the specification. *)
Lemma notify_inputs_chord down :
  notify_inputs INPUT_KEYBOARD KEYEVENTF_KEYUP
    ((map (fun vk => (vk, false))
         (filter (fun vk => vk ∈ down) [VK_SHIFT; VK_CONTROL; VK_MENU])
      ++ [(0x5B, true)]) ++ [(0x55, true)])%list
  = chord_sequence_ down.
Proof.
  unfold notify_inputs, chord_sequence.
  rewrite !filter_cons, !filter_nil.
  destruct (decide (VK_SHIFT ∈ down)), (decide (VK_CONTROL ∈ down)),
    (decide (VK_MENU ∈ down)); reflexivity.
Qed.




(** [notify], step by step. *)
Lemma notify_unfold signal w :
  notify_ signal w =
  match isRegistered w with
  | (Ok false, w0) => (Ok tt, w0)
  | (Ok true, w0) =>
      match CreateKey HKEY_CURRENT_USER TEMP_KEY w0 with
      | (Ok rkey, w1) =>
          match SetValueEx rkey APP_KEY_NAME None REG_DWORD signal w1 with
          | (Ok _, w2) =>
              match unwanted_modifiers [VK_SHIFT; VK_CONTROL; VK_MENU] [] w2 with
              | (Ok keys, w3) =>
                  SendInput INPUT_KEYBOARD KEYEVENTF_KEYUP
                    (notify_inputs INPUT_KEYBOARD KEYEVENTF_KEYUP
                       ((keys ++ [(0x5B, true)]) ++ [(0x55, true)])%list) w3
              | (Raise e, w3) => (Raise e, w3)
              end
          | (Raise e, w2) => (Raise e, w2)
          end
      | (Raise e, w1) => (Raise e, w1)
      end
  | (Raise e, w0) => (Raise e, w0)
  end.
Proof.
  unfold notify. unfold mbind at 1. unfold M_bind, bind.
  destruct (isRegistered w) as [[[|]|e] w0]; reflexivity.
Qed.

Lemma notify_skips signal w :
  fst (isRegistered w) = Ok false ->
  notify_ signal w = (Ok tt, snd (isRegistered w)).
Proof.
  intros H. rewrite notify_unfold.
  destruct (isRegistered w) as [[[|]|e] w0]; simpl in H; try discriminate.
  reflexivity.
Qed.

(** A run of [notify] that gets past the registration test and returns:
    the signal is stored, one batch of events is sent, and the keys are
    those the batch leaves. *)
Lemma notify_runs signal w :
  fst (isRegistered w) = Ok true ->
  fst (notify_ signal w) = Ok tt ->
  sentInputs (snd (notify_ signal w))
  = (sentInputs w ++ [chord_sequence_ (keysDown w)])%list
  /\ keysDown (snd (notify_ signal w))
     = applyInputs_ (chord_sequence_ (keysDown w)) (keysDown w)
  /\ exists k,
       registry (snd (notify_ signal w)) !! (HKEY_CURRENT_USER, TEMP_KEY) = Some k /\
       values k !! APP_KEY_NAME = Some (signal, REG_DWORD).
Proof.
  intros Hreg. rewrite notify_unfold.
  pose proof (isRegistered_frame w) as (_ & Hd0 & _ & Hs0).
  destruct (isRegistered w) as [[[|]|e] w0]; simpl in Hreg; try discriminate.
  cbn [snd] in Hd0, Hs0.
  pose proof (CreateKey_frame HKEY_CURRENT_USER TEMP_KEY w0) as (Hd1 & Hs1).
  destruct (CreateKey HKEY_CURRENT_USER TEMP_KEY w0) as [[rkey|e] w1] eqn:Hck;
    [|discriminate].
  cbn [snd] in Hd1, Hs1.
  pose proof (SetValueEx_frame rkey APP_KEY_NAME None REG_DWORD signal w1)
    as (Hd2 & Hs2).
  assert (Hval :
            fst (SetValueEx rkey APP_KEY_NAME None REG_DWORD signal w1) = Ok tt ->
            exists k,
              registry (snd (SetValueEx rkey APP_KEY_NAME None REG_DWORD signal w1))
                !! (HKEY_CURRENT_USER, TEMP_KEY) = Some k /\
              values k !! APP_KEY_NAME = Some (signal, REG_DWORD)).
  { assert (Hh : h_root rkey = HKEY_CURRENT_USER /\ h_path rkey = TEMP_KEY).
    { unfold CreateKey in Hck.
      destruct (registry w0 !! (HKEY_CURRENT_USER, TEMP_KEY)) as [k0|].
      - destruct (access_ok (granted k0) KEY_WRITE); inversion Hck; auto.
      - inversion Hck; auto. }
    destruct Hh as [Hroot Hpath]. unfold SetValueEx. rewrite Hroot, Hpath.
    unfold convert_data. cbn [Z.eqb REG_DWORD REG_SZ Pos.eqb].
    destruct signal as [s|n]; [discriminate|].
    destruct ((0 <=? n) && (n <? 2 ^ 32)); [|discriminate].
    destruct (negb _); [discriminate|].
    destruct (registry w1 !! (HKEY_CURRENT_USER, TEMP_KEY)) as [k1|]; [|discriminate].
    intros _. cbn [snd set_registry registry]. eexists. split.
    - apply lookup_insert_eq.
    - cbn [values]. apply lookup_insert_eq. }
  destruct (SetValueEx rkey APP_KEY_NAME None REG_DWORD signal w1) as [[u|e] w2];
    [|discriminate].
  cbn [snd] in Hd2, Hs2. destruct u. specialize (Hval eq_refl). cbn [snd] in Hval.
  pose proof (unwanted_modifiers_spec [VK_SHIFT; VK_CONTROL; VK_MENU] [] w2)
    as (Hk & Hr3 & Hd3 & Hs3 & _).
  destruct (unwanted_modifiers [VK_SHIFT; VK_CONTROL; VK_MENU] [] w2)
    as [[keys|e] w3]; simpl in Hk; [|discriminate].
  cbn [snd] in Hr3, Hd3, Hs3. inversion Hk; subst keys.
  intros _. unfold SendInput. cbn [snd fst sentInputs keysDown registry].
  rewrite notify_inputs_chord.
  rewrite Hs3, Hs2, Hs1, Hs0, Hd3, Hd2, Hd1, Hd0, Hr3.
  repeat split; try reflexivity. exact Hval.
Qed.


(** C10: when [isRegistered] returns [False], [notify] returns at once:
    the registry, the events sent and the keys are as before.  So a
    change of the registry or a batch of events means that
    [isRegistered] returned [True]; and then a run that returns has
    stored the signal as a REG_DWORD and sent one batch. *)
Theorem notify_gated_on_registration signal w :
  (fst (isRegistered w) = Ok false ->
     fst (notify_ signal w) = Ok tt /\
     registry (snd (notify_ signal w)) = registry w /\
     sentInputs (snd (notify_ signal w)) = sentInputs w /\
     keysDown (snd (notify_ signal w)) = keysDown w)
  /\ (registry (snd (notify_ signal w)) <> registry w \/
      sentInputs (snd (notify_ signal w)) <> sentInputs w ->
      fst (isRegistered w) = Ok true)
  /\ (fst (isRegistered w) = Ok true ->
      fst (notify_ signal w) = Ok tt ->
      (exists k,
         registry (snd (notify_ signal w)) !! (HKEY_CURRENT_USER, TEMP_KEY) = Some k /\
         values k !! APP_KEY_NAME = Some (signal, REG_DWORD)) /\
      exists inputs,
        sentInputs (snd (notify_ signal w)) = (sentInputs w ++ [inputs])%list).
Proof.
  assert (Hskip : fst (isRegistered w) = Ok false ->
            fst (notify_ signal w) = Ok tt /\
            registry (snd (notify_ signal w)) = registry w /\
            sentInputs (snd (notify_ signal w)) = sentInputs w /\
            keysDown (snd (notify_ signal w)) = keysDown w).
  { intros H. rewrite (notify_skips signal w H).
    pose proof (isRegistered_frame w) as (Hr & Hd & _ & Hs). auto. }
  split; [exact Hskip|]. split.
  - intros Hchanged.
    assert (Hb : exists b, fst (isRegistered w) = Ok b).
    { rewrite isRegistered_unfold.
      destruct (registry w !! (HKEY_LOCAL_MACHINE, APP_KEY_PATH)) as [k|]; [|eauto].
      destruct (access_ok (granted k) READ_ACCESS); eauto. }
    destruct Hb as [[|] Hb]; [exact Hb|].
    destruct (Hskip Hb) as (_ & Hr & Hs & _).
    destruct Hchanged as [Hc|Hc]; contradiction.
  - intros Hreg Hok.
    destruct (notify_runs signal w Hreg Hok) as (Hsent & _ & Hval).
    split; [exact Hval | eauto].
Qed.

End NotifyFacts.



Lemma notify_gated_on_registration_witness :
  let notify_ := notify 0x10 0x11 0x12 1 2 in
  fst (isRegistered empty_world) = Ok false
  /\ fst (notify_ (PyInt 3) empty_world) = Ok tt
  /\ registry (snd (notify_ (PyInt 3) empty_world)) = registry empty_world
  /\ sentInputs (snd (notify_ (PyInt 3) empty_world)) = sentInputs empty_world
  /\ keysDown (snd (notify_ (PyInt 3) empty_world)) = keysDown empty_world.
Proof.
  intros notify_.
  assert (H : fst (isRegistered empty_world) = Ok false) by (vm_compute; reflexivity).
  split; [exact H|].
  exact (proj1 (notify_gated_on_registration 0x10 0x11 0x12 1 2 (PyInt 3) empty_world) H).
Defined.

(** ** The Outlook app module *)

Section OutlookFacts.
Variables LOCALE_USER_DEFAULT TIME_NOSECONDS DATE_LONGDATE : Z.
Variable GetTimeFormat : Z -> Z -> datetime -> option string -> string.
Variable GetDateFormat : Z -> Z -> datetime -> option string -> string.
Variables ROLE_UNKNOWN ROLE_EDITABLETEXT ROLE_PANE : Z.
Variables ROLE_MENUBAR ROLE_MENUITEM : Z.
Variables ROLE_TREEVIEW ROLE_TREEVIEWITEM ROLE_LIST ROLE_LISTITEM : Z.
Variable ROLE_GRAPHIC : Z.
Variables STATE_EXPANDED STATE_COLLAPSED : Z.
Variable stateLabels : Z -> string.
Variable tr : string -> string.
Variable PyObject : Type.
Variable Window_get_parent : PyObject -> PyObject.

(** C7: [_generateTimeRangeText] returns "<startText> to <endText>";
    the end text carries the long date of the end time exactly when the
    two dates differ; the start text carries the long date of the start
    time exactly when [_lastStartDate] is unset, or differs from the
    start date, or the two dates differ; and [_lastStartDate] is the
    start date afterwards. *)
Theorem generateTimeRangeText_spec (last : option date)
    (startTime endTime : datetime) :
  let timeText t := GetTimeFormat LOCALE_USER_DEFAULT TIME_NOSECONDS t None in
  let longDate t := GetDateFormat LOCALE_USER_DEFAULT DATE_LONGDATE t None in
  let startText :=
    if decide (last = None \/ Some (date_of startTime) <> last
               \/ date_of endTime <> date_of startTime)
    then longDate startTime +:+ " " +:+ timeText startTime
    else timeText startTime in
  let endText :=
    if decide (date_of endTime <> date_of startTime)
    then longDate endTime +:+ " " +:+ timeText endTime
    else timeText endTime in
  _generateTimeRangeText LOCALE_USER_DEFAULT TIME_NOSECONDS DATE_LONGDATE
    GetTimeFormat GetDateFormat last startTime endTime
  = (startText +:+ " to " +:+ endText, Some (date_of startTime)).
Proof.
  cbv zeta. unfold _generateTimeRangeText. f_equal. f_equal.
  - destruct last as [d|].
    + repeat case_bool_decide; case_decide; cbn;
        first [reflexivity | exfalso; intuition congruence].
    + rewrite decide_True by (left; reflexivity). reflexivity.
  - f_equal. case_bool_decide; case_decide; cbn;
      first [reflexivity | contradiction].
Qed.

Abbreviation selection_texts_ := (selection_texts tr).
Abbreviation importanceLabels_ := (importanceLabels tr).
Abbreviation _get_name_ :=
  (_get_name ROLE_GRAPHIC STATE_EXPANDED STATE_COLLAPSED stateLabels tr).
Abbreviation children_texts_ := (children_texts ROLE_GRAPHIC).

(** With every read yielding a value or [COMError], the selected-item
    part of the name is computed from the values, a failed read counting
    as its default. *)
Lemma selection_texts_guarded sel textList :
  com_outcome (unread sel) -> com_outcome (attachments_count sel) ->
  com_outcome (importance sel) -> com_outcome (messageClass sel) ->
  selection_texts_ sel textList
  = Ok (textList
        ++ (if read_or false (unread sel) then [tr "unread"] else [])
        ++ (if read_or 0 (attachments_count sel) >? 0
            then [tr "has attachment"] else [])
        ++ match importanceLabels_ (read_or 1 (importance sel)) with
           | Some label => if PyStr.truthy label then [label] else []
           | None => []
           end
        ++ (if bool_decide (read_or None (Some <$> messageClass sel)
                            = Some "IPM.Schedule.Meeting.Request")
            then [tr "meeting request"] else []))%list.
Proof.
  destruct sel as [u a i m]. cbn [unread attachments_count importance messageClass].
  intros Hu Ha Hi Hm. unfold selection_texts.
  cbn [unread attachments_count importance messageClass].
  destruct u as [u|e]; [|simpl in Hu; subst e];
  destruct a as [a|e]; [|simpl in Ha; subst e| |simpl in Ha; subst e];
  destruct i as [i|e]; try (simpl in Hi; subst e);
  destruct m as [m|e]; try (simpl in Hm; subst e);
  cbn [com_guard read_or fmap result_fmap mbind result_bind mret result_ret];
  repeat match goal with
    | |- context [if ?b then _ else _] => destruct b
    | |- context [match ?o with Some _ => _ | None => _ end] => destruct o
    end;
  rewrite <- ?app_assoc, ?app_nil_r; reflexivity.
Qed.

(** C8: in [UIAGridRow._get_name] each of the four reads on the
    selected item is guarded on its own: a [COMError] on [unread] counts
    as [False], on [attachments.count] as 0, on [importance] as 1 (which
    has no importance label), on [messageClass] as [None]; whichever of
    them fail, the name is computed and returned as a string. *)
Theorem UIAGridRow_get_name_guards (self : UIAGridRow) (sel : Selection) :
  nativeOm_selection self = Some (Ok sel) ->
  com_outcome (unread sel) -> com_outcome (attachments_count sel) ->
  com_outcome (importance sel) -> com_outcome (messageClass sel) ->
  let stateText :=
    if bool_decide (STATE_EXPANDED ∈ states self)
    then [stateLabels STATE_EXPANDED]
    else if bool_decide (STATE_COLLAPSED ∈ states self)
    then [stateLabels STATE_COLLAPSED]
    else [] in
  let unread := read_or false (unread sel) in
  let attachmentCount := read_or 0 (attachments_count sel) in
  let importance := read_or 1 (importance sel) in
  let messageClass := read_or None (Some <$> messageClass sel) in
  _get_name_ self
  = Ok (PyStr.join " "
          (children_texts_ (reportTableHeaders self) (children self)
             (stateText
              ++ (if unread then [tr "unread"] else [])
              ++ (if attachmentCount >? 0 then [tr "has attachment"] else [])
              ++ match importanceLabels_ importance with
                 | Some label => if PyStr.truthy label then [label] else []
                 | None => []
                 end
              ++ (if bool_decide (messageClass = Some "IPM.Schedule.Meeting.Request")
                  then [tr "meeting request"] else []))%list))
  /\ importanceLabels_ 1 = None.
Proof.
  intros Hsel Hu Ha Hi Hm. cbv zeta. split; [|reflexivity].
  unfold _get_name. rewrite Hsel.
  cbn [com_guard fmap result_fmap mbind result_bind mret result_ret].
  rewrite selection_texts_guarded by assumption.
  cbn [mbind result_bind].
  destruct (bool_decide (STATE_EXPANDED ∈ states self)); [reflexivity|].
  destruct (bool_decide (STATE_COLLAPSED ∈ states self)); reflexivity.
Qed.

Abbreviation event_NVDAObject_init_ :=
  (event_NVDAObject_init ROLE_UNKNOWN ROLE_EDITABLETEXT ROLE_PANE ROLE_MENUBAR
     ROLE_MENUITEM ROLE_TREEVIEW ROLE_TREEVIEWITEM ROLE_LIST ROLE_LISTITEM
     PyObject Window_get_parent).

(** Two ways of writing a test agree. *)
Lemma if_bool_decide (A : Type) (b : bool) (P : Prop) (d : Decision P) (x y : A) :
  (b = true <-> P) -> (if b then x else y) = (if d then x else y).
Proof.
  intros Hb. destruct b, d; try reflexivity; exfalso.
  - apply n, Hb. reflexivity.
  - apply Hb in p. discriminate.
Qed.

(** C9: [event_NVDAObject_init] replaces the parent by the window's
    grandparent for the RichEdit20W/8224 editable text and for the
    Internet Explorer_Server pane that is not MSHTML; sets the
    description to [None] for menu bars and menu items; overrides the
    role with list-item for the UNKNOWN objects of SUPERGRID/4704 and
    rctrl_renwnd32/109; sets the focus-event flag on tree and list
    objects; and changes nothing else. *)
Theorem event_NVDAObject_init_patches (obj : NVDAObject PyObject) :
  let obj' := event_NVDAObject_init_ obj in
  let grandparent := Window_get_parent (Window_get_parent (this _ obj)) in
  parent _ obj'
  = (if decide ((role _ obj = ROLE_EDITABLETEXT
                 /\ windowClassName _ obj = "RichEdit20W"
                 /\ windowControlID _ obj = 8224)
                \/ (role _ obj = ROLE_PANE
                    /\ windowClassName _ obj = "Internet Explorer_Server"
                    /\ isMSHTML _ obj = false))
     then grandparent else parent _ obj)
  /\ description _ obj'
     = (if decide (role _ obj = ROLE_MENUBAR \/ role _ obj = ROLE_MENUITEM)
        then None else description _ obj)
  /\ role _ obj'
     = (if decide (role _ obj = ROLE_UNKNOWN
                   /\ ((windowClassName _ obj = "SUPERGRID"
                        /\ windowControlID _ obj = 4704)
                       \/ (windowClassName _ obj = "rctrl_renwnd32"
                           /\ windowControlID _ obj = 109)))
        then ROLE_LISTITEM else role _ obj)
  /\ shouldAllowIAccessibleFocusEvent _ obj'
     = (if decide (role _ obj ∈ [ROLE_TREEVIEW; ROLE_TREEVIEWITEM;
                                 ROLE_LIST; ROLE_LISTITEM])
        then true else shouldAllowIAccessibleFocusEvent _ obj)
  /\ this _ obj' = this _ obj
  /\ isMSHTML _ obj' = isMSHTML _ obj
  /\ windowClassName _ obj' = windowClassName _ obj
  /\ windowControlID _ obj' = windowControlID _ obj.
Proof.
  destruct obj as [self html r cls cid par descr flag].
  cbv zeta. unfold event_NVDAObject_init.
  cbn [this isMSHTML role windowClassName windowControlID parent description
       shouldAllowIAccessibleFocusEvent].
  assert (H1 : (r =? ROLE_EDITABLETEXT) && bool_decide (cls = "RichEdit20W")
                 && (cid =? 8224)
               || bool_decide (cls = "Internet Explorer_Server")
                  && (r =? ROLE_PANE) && negb html = true <->
               (r = ROLE_EDITABLETEXT /\ cls = "RichEdit20W" /\ cid = 8224)
               \/ (r = ROLE_PANE /\ cls = "Internet Explorer_Server"
                   /\ html = false)).
  { rewrite orb_true_iff, !andb_true_iff, !Z.eqb_eq, !bool_decide_eq_true,
      negb_true_iff. tauto. }
  assert (H3 : bool_decide (r ∈ [ROLE_MENUBAR; ROLE_MENUITEM]) = true <->
               r = ROLE_MENUBAR \/ r = ROLE_MENUITEM).
  { rewrite bool_decide_eq_true, !elem_of_cons, elem_of_nil. tauto. }
  assert (H4 : bool_decide (r ∈ [ROLE_TREEVIEW; ROLE_TREEVIEWITEM;
                                 ROLE_LIST; ROLE_LISTITEM]) = true <->
               r ∈ [ROLE_TREEVIEW; ROLE_TREEVIEWITEM; ROLE_LIST; ROLE_LISTITEM]).
  { apply bool_decide_eq_true. }
  assert (H5 : ((bool_decide (cls = "SUPERGRID") && (cid =? 4704))
                || (bool_decide (cls = "rctrl_renwnd32") && (cid =? 109)))
               && (r =? ROLE_UNKNOWN) = true <->
               r = ROLE_UNKNOWN /\ ((cls = "SUPERGRID" /\ cid = 4704)
                                    \/ (cls = "rctrl_renwnd32" /\ cid = 109))).
  { rewrite andb_true_iff, orb_true_iff, !andb_true_iff, !Z.eqb_eq,
      !bool_decide_eq_true. tauto. }
  rewrite <- (if_bool_decide _ _ _ _ _ _ H1), <- (if_bool_decide _ _ _ _ _ _ H3),
    <- (if_bool_decide _ _ _ _ _ _ H4), <- (if_bool_decide _ _ _ _ _ _ H5).
  clear H1 H3 H4 H5.
  generalize ((r =? ROLE_EDITABLETEXT) && bool_decide (cls = "RichEdit20W")
              && (cid =? 8224)) as c1.
  generalize (bool_decide (cls = "Internet Explorer_Server") && (r =? ROLE_PANE))
    as c2.
  generalize (bool_decide (r ∈ [ROLE_MENUBAR; ROLE_MENUITEM])) as c3.
  generalize (bool_decide (r ∈ [ROLE_TREEVIEW; ROLE_TREEVIEWITEM;
                                ROLE_LIST; ROLE_LISTITEM])) as c4.
  generalize (((bool_decide (cls = "SUPERGRID") && (cid =? 4704))
               || (bool_decide (cls = "rctrl_renwnd32") && (cid =? 109)))
              && (r =? ROLE_UNKNOWN)) as c5.
  intros c5 c4 c3 c2 c1.
  destruct c1, c2, html, c3, c4, c5; repeat split; reflexivity.
Qed.

End OutlookFacts.

Lemma UIAGridRow_get_name_guards_witness :
  let sel := mkSelection (Raise COMError) (Ok 2) (Raise COMError)
                         (Raise COMError) in
  let self := mkUIAGridRow [] (Some (Ok sel))
                [mkChild false 0 (Some "Re: minutes") None] false in
  _get_name 16 1 2 (fun _ => "expanded") id self
  = Ok (PyStr.join " "
          (children_texts 16 false [mkChild false 0 (Some "Re: minutes") None]
             ["has attachment"])).
Proof.
  intros sel self.
  exact (proj1 (UIAGridRow_get_name_guards 16 1 2 (fun _ => "expanded") id self sel
                  eq_refl eq_refl I eq_refl eq_refl)).
Defined.

(** * Further properties of the code *)

(** ** More on [split], [join] and the list operations *)

Lemma string_app_assoc (a b c : string) : (a +:+ b) +:+ c = a +:+ b +:+ c.
Proof.
  induction a as [|ch a IH]; [reflexivity|].
  change (String ch ((a +:+ b) +:+ c) = String ch (a +:+ b +:+ c)).
  rewrite IH. reflexivity.
Qed.

(** Joining the fields of a string gives the string back. *)
Lemma join_split sep s :
  PyStr.join (String sep EmptyString) (PyStr.split sep s) = s.
Proof.
  induction s as [|c rest IH]; [reflexivity|].
  cbn [PyStr.split]. pose proof (PyStrFacts.split_nonempty sep rest) as Hne.
  destruct (Ascii.eqb_spec c sep) as [->|Hc].
  - destruct (PyStr.split sep rest) as [|f fs] eqn:E; [congruence|].
    change (PyStr.join (String sep "") ("" :: f :: fs))
      with (String sep (PyStr.join (String sep "") (f :: fs))).
    rewrite IH. reflexivity.
  - destruct (PyStr.split sep rest) as [|f fs] eqn:E; [congruence|].
    destruct fs as [|g fs].
    + simpl in *. rewrite IH. reflexivity.
    + change (PyStr.join (String sep "") (String c f :: g :: fs))
        with (String c (PyStr.join (String sep "") (f :: g :: fs))).
      rewrite IH. reflexivity.
Qed.

Lemma join_snoc sep l x :
  l <> [] -> PyStr.join sep (l ++ [x]) = PyStr.join sep l +:+ sep +:+ x.
Proof.
  induction l as [|y l IH]; intros Hne; [congruence|].
  destruct l as [|z l].
  - reflexivity.
  - change (PyStr.join sep ((y :: z :: l) ++ [x]))
      with (y +:+ sep +:+ PyStr.join sep ((z :: l) ++ [x])).
    rewrite IH by discriminate.
    change (PyStr.join sep (y :: z :: l))
      with (y +:+ sep +:+ PyStr.join sep (z :: l)).
    rewrite !string_app_assoc. reflexivity.
Qed.

Lemma join_nonempty sep l :
  l <> [] -> Forall (fun x => x <> "") l -> PyStr.join sep l <> "".
Proof.
  intros Hne Hall. destruct l as [|x l]; [congruence|].
  inversion Hall as [|? ? Hx _]; subst.
  destruct x as [|c x]; [congruence|].
  destruct l; simpl; discriminate.
Qed.

Lemma remove_first_snoc x l :
  x ∉ l -> remove_first x (l ++ [x]) = Some l.
Proof.
  induction l as [|y l IH]; intros Hn; simpl.
  - rewrite bool_decide_eq_true_2 by reflexivity. reflexivity.
  - apply not_elem_of_cons in Hn as [Hne Hn].
    rewrite bool_decide_eq_false_2 by congruence. rewrite IH by assumption.
    reflexivity.
Qed.

Lemma remove_first_elem_other x y l l' :
  remove_first x l = Some l' -> y <> x -> (y ∈ l' <-> y ∈ l).
Proof.
  revert l'. induction l as [|z l IH]; simpl; intros l' H Hne; [discriminate|].
  case_bool_decide as Hz.
  - inversion H; subst. rewrite elem_of_cons. split; [auto|].
    intros [?|?]; congruence.
  - destruct (remove_first x l) as [l0|]; [|discriminate]. inversion H; subst.
    rewrite !elem_of_cons, (IH l0 eq_refl Hne). reflexivity.
Qed.

Lemma occurrences_strip_empty_head x l :
  x <> "" -> occurrences x (strip_empty_head l) = occurrences x l.
Proof.
  intros Hx. destruct l as [|[|c f] l]; try reflexivity.
  unfold occurrences. cbn [strip_empty_head].
  rewrite filter_cons_False by congruence. reflexivity.
Qed.

Lemma strip_split_head_nonempty s :
  head_nonempty s -> strip_empty_head (PyStr.split "," s) = PyStr.split "," s.
Proof.
  intros (f & r & E & Hf). rewrite E. destruct f; [congruence | reflexivity].
Qed.

(** The string stored by enabling, from the string found. *)
Lemma stored_after_enable s :
  s = "" \/ head_nonempty s ->
  PyStr.join "," (strip_empty_head (PyStr.split "," s) ++ [APP_KEY_NAME])
  = match s with "" => APP_KEY_NAME | _ => s +:+ "," +:+ APP_KEY_NAME end.
Proof.
  intros [->|Hh]; [reflexivity|].
  rewrite (strip_split_head_nonempty _ Hh).
  rewrite join_snoc by apply PyStrFacts.split_nonempty.
  rewrite join_split.
  destruct s; [|reflexivity].
  destruct Hh as (f & r & E & Hf). simpl in E. inversion E; subst. congruence.
Qed.

(** ** More on the registry operations *)

Section WriteOnKey.
Variables (hkey : Z) (w : World) (k : RegKey).
Hypothesis Hkey : registry w !! (hkey, ROOT_KEY) = Some k.
Hypothesis Hwrite : access_ok (granted k) WRITE_ACCESS = true.

Lemma write_configuration_eq conf :
  write_configuration hkey conf w
  = (Ok tt, set_registry
              (<[(hkey, ROOT_KEY) := with_configuration (PyStr.join "," conf) k]>
                 (registry w)) w).
Proof using All.
  unfold write_configuration, OpenKey, SetValueEx. unfold_M.
  rewrite Hkey, Hwrite. cbn. rewrite Hkey. reflexivity.
Qed.

Lemma getconf_eq s ty :
  values k !! "Configuration" = Some (PyStr s, ty) ->
  _getAutoStartConfiguration hkey w
  = (Ok (strip_empty_head (PyStr.split "," s)), w).
Proof using All.
  intros Hv. rewrite getconf_unfold, Hkey, (write_access_reads _ Hwrite), Hv.
  reflexivity.
Qed.

(** What a run of [setAutoStart] that changes the list leaves behind. *)
Lemma setAutoStart_writes s ty enable conf' :
  values k !! "Configuration" = Some (PyStr s, ty) ->
  (if enable : bool
   then (APP_KEY_NAME ∉ strip_empty_head (PyStr.split "," s)) /\
        (conf' = (strip_empty_head (PyStr.split "," s) ++ [APP_KEY_NAME])%list)
   else (remove_first APP_KEY_NAME (strip_empty_head (PyStr.split "," s))
         = Some conf')) ->
  setAutoStart hkey enable w
  = (Ok tt, set_registry
              (<[(hkey, ROOT_KEY) := with_configuration (PyStr.join "," conf') k]>
                 (registry w)) w).
Proof using All.
  intros Hv Hc. rewrite setAutoStart_unfold, (getconf_eq _ _ Hv).
  destruct enable.
  - destruct Hc as [Hn ->]. rewrite bool_decide_eq_false_2 by assumption.
    apply write_configuration_eq.
  - rewrite Hc. apply write_configuration_eq.
Qed.

End WriteOnKey.

(** The write phase either stores the joined list in the key or raises
    and changes nothing. *)
Lemma write_configuration_cases hkey conf w :
  (exists k, registry w !! (hkey, ROOT_KEY) = Some k /\
             access_ok (granted k) WRITE_ACCESS = true /\
             write_configuration hkey conf w
             = (Ok tt, set_registry
                  (<[(hkey, ROOT_KEY) := with_configuration (PyStr.join "," conf) k]>
                     (registry w)) w))
  \/ (exists e, write_configuration hkey conf w = (Raise e, w)).
Proof.
  destruct (registry w !! (hkey, ROOT_KEY)) as [k|] eqn:Hk.
  - destruct (access_ok (granted k) WRITE_ACCESS) eqn:Ha.
    + left. exists k. repeat split; try assumption.
      apply write_configuration_eq; assumption.
    + right. exists PermissionError.
      unfold write_configuration, OpenKey. unfold_M. rewrite Hk, Ha. reflexivity.
  - right. exists FileNotFoundError.
    unfold write_configuration, OpenKey. unfold_M. rewrite Hk. reflexivity.
Qed.

(** What is read after a successful write of [conf]. *)
Lemma getconf_after_write hkey conf w :
  fst (write_configuration hkey conf w) = Ok tt ->
  fst (_getAutoStartConfiguration hkey (snd (write_configuration hkey conf w)))
  = Ok (strip_empty_head (PyStr.split "," (PyStr.join "," conf))).
Proof.
  intros Hok.
  destruct (write_configuration_ok _ _ _ Hok) as (k & Hk & Ha & Hreg).
  eapply getconf_str with (k := with_configuration _ k).
  - rewrite Hreg. apply lookup_insert_eq.
  - simpl. apply write_access_reads, Ha.
  - simpl. apply lookup_insert_eq.
Qed.

(** X1: the operations that read ([isRegistered],
    [_getAutoStartConfiguration], [willAutoStart]) never write: registry,
    held keys and sent events are as before, whatever they return. *)
Theorem reading_never_writes hkey w :
  let unchanged w' :=
    registry w' = registry w /\ keysDown w' = keysDown w
    /\ sentInputs w' = sentInputs w in
  unchanged (snd (isRegistered w))
  /\ unchanged (snd (_getAutoStartConfiguration hkey w))
  /\ unchanged (snd (willAutoStart hkey w)).
Proof.
  cbv zeta.
  pose proof (isRegistered_frame w) as (R1 & D1 & _ & S1).
  pose proof (getconf_frame hkey w) as (R2 & D2 & _ & S2).
  repeat apply conj; try assumption;
    unfold willAutoStart; unfold_M;
    destruct (_getAutoStartConfiguration hkey w) as [[c|e] w1]; assumption.
Qed.

(** X2: for a readable key whose "Configuration" is a string,
    [willAutoStart] tells whether "nvda_nvda_v1" is one of the
    comma-separated fields of the string, as a whole field. *)
Theorem willAutoStart_iff_field hkey w k s ty :
  registry w !! (hkey, ROOT_KEY) = Some k ->
  access_ok (granted k) (Z.lor KEY_READ KEY_WOW64_64KEY) = true ->
  values k !! "Configuration" = Some (PyStr s, ty) ->
  fst (willAutoStart hkey w) = Ok (bool_decide (APP_KEY_NAME ∈ PyStr.split "," s)).
Proof.
  intros Hk Ha Hv. erewrite willAutoStart_fst by (eapply getconf_str; eassumption).
  f_equal. apply bool_decide_ext.
  apply elem_of_strip_empty_head, APP_KEY_NAME_nonempty.
Qed.

Lemma willAutoStart_iff_field_witness :
  fst (willAutoStart HKEY_CURRENT_USER
         (registry_with HKEY_CURRENT_USER KEY_READ "narrator,xnvda_nvda_v1"))
  = Ok (bool_decide (APP_KEY_NAME ∈ PyStr.split "," "narrator,xnvda_nvda_v1")).
Proof.
  refine (willAutoStart_iff_field HKEY_CURRENT_USER
            (registry_with HKEY_CURRENT_USER KEY_READ "narrator,xnvda_nvda_v1")
            (mkRegKey KEY_READ
               {[ "Configuration" := (PyStr "narrator,xnvda_nvda_v1", REG_SZ) ]})
            "narrator,xnvda_nvda_v1" REG_SZ _ _ _);
    vm_compute; reflexivity.
Defined.

(** X3: when "Configuration" holds an integer instead of a string, the
    [split] has nothing to work on: [_getAutoStartConfiguration],
    [willAutoStart] and [setAutoStart] raise [AttributeError], which no
    handler catches, and the registry is left as it was. *)
Theorem non_string_configuration_raises hkey w k n ty enable :
  registry w !! (hkey, ROOT_KEY) = Some k ->
  access_ok (granted k) (Z.lor KEY_READ KEY_WOW64_64KEY) = true ->
  values k !! "Configuration" = Some (PyInt n, ty) ->
  fst (_getAutoStartConfiguration hkey w) = Raise AttributeError
  /\ fst (willAutoStart hkey w) = Raise AttributeError
  /\ fst (setAutoStart hkey enable w) = Raise AttributeError
  /\ registry (snd (setAutoStart hkey enable w)) = registry w.
Proof.
  intros Hk Ha Hv.
  assert (E : _getAutoStartConfiguration hkey w = (Raise AttributeError, w)).
  { rewrite getconf_unfold, Hk. fold READ_ACCESS in Ha. rewrite Ha, Hv.
    reflexivity. }
  repeat apply conj.
  - rewrite E. reflexivity.
  - unfold willAutoStart. unfold_M. rewrite E. reflexivity.
  - rewrite setAutoStart_unfold, E. reflexivity.
  - rewrite setAutoStart_unfold, E. reflexivity.
Qed.

Lemma non_string_configuration_raises_witness :
  let w := registry_with_dword HKEY_CURRENT_USER KEY_ALL_ACCESS 1 in
  fst (_getAutoStartConfiguration HKEY_CURRENT_USER w) = Raise AttributeError
  /\ fst (willAutoStart HKEY_CURRENT_USER w) = Raise AttributeError
  /\ fst (setAutoStart HKEY_CURRENT_USER true w) = Raise AttributeError
  /\ registry (snd (setAutoStart HKEY_CURRENT_USER true w)) = registry w.
Proof.
  intros w.
  refine (non_string_configuration_raises HKEY_CURRENT_USER w
            (mkRegKey KEY_ALL_ACCESS {[ "Configuration" := (PyInt 1, REG_DWORD) ]})
            1 REG_DWORD true _ _ _);
    vm_compute; reflexivity.
Defined.

(** X4: [setAutoStart] touches nothing but the "Configuration" value of
    the Accessibility key under [hkey]: keys and sent events are as
    before; when it raises, the registry is unchanged; every other key is
    unchanged; and the key itself, if there afterwards, was there before
    with the same rights and the same other values (it is never
    created). *)
Theorem setAutoStart_frame hkey enable w :
  let w' := snd (setAutoStart hkey enable w) in
  keysDown w' = keysDown w /\ sentInputs w' = sentInputs w
  /\ (forall e, fst (setAutoStart hkey enable w) = Raise e ->
                registry w' = registry w)
  /\ (forall key, key <> (hkey, ROOT_KEY) ->
                  registry w' !! key = registry w !! key)
  /\ (forall k', registry w' !! (hkey, ROOT_KEY) = Some k' ->
        exists k, registry w !! (hkey, ROOT_KEY) = Some k /\
                  granted k' = granted k /\
                  forall name, name <> "Configuration" ->
                               values k' !! name = values k !! name).
Proof.
  cbv zeta. rewrite setAutoStart_unfold.
  pose proof (getconf_frame hkey w) as (R & D & _ & S).
  destruct (_getAutoStartConfiguration hkey w) as [[conf|e0] w1]; cbn [snd] in *.
  2: { rewrite R. repeat apply conj; eauto. }
  assert (Hsame : forall r : result unit,
            keysDown w1 = keysDown w /\ sentInputs w1 = sentInputs w
            /\ (forall e, fst (r, w1) = Raise e -> registry w1 = registry w)
            /\ (forall key, key <> (hkey, ROOT_KEY) ->
                            registry w1 !! key = registry w !! key)
            /\ (forall k', registry w1 !! (hkey, ROOT_KEY) = Some k' ->
                  exists k, registry w !! (hkey, ROOT_KEY) = Some k /\
                            granted k' = granted k /\
                            forall name, name <> "Configuration" ->
                                         values k' !! name = values k !! name)).
  { intros r. rewrite R. repeat apply conj; eauto. }
  assert (Hwr : forall conf',
            let r := write_configuration hkey conf' w1 in
            keysDown (snd r) = keysDown w /\ sentInputs (snd r) = sentInputs w
            /\ (forall e, fst r = Raise e -> registry (snd r) = registry w)
            /\ (forall key, key <> (hkey, ROOT_KEY) ->
                            registry (snd r) !! key = registry w !! key)
            /\ (forall k', registry (snd r) !! (hkey, ROOT_KEY) = Some k' ->
                  exists k, registry w !! (hkey, ROOT_KEY) = Some k /\
                            granted k' = granted k /\
                            forall name, name <> "Configuration" ->
                                         values k' !! name = values k !! name)).
  { intros conf'. cbv zeta.
    destruct (write_configuration_cases hkey conf' w1)
      as [(k & Hk & Ha & ->)|(e & ->)]; [|apply (Hsame (Raise e))].
    cbn [snd fst set_registry keysDown sentInputs registry].
    rewrite <- R. repeat apply conj; try assumption.
    - discriminate.
    - intros key Hne. apply lookup_insert_ne. congruence.
    - intros k'. rewrite lookup_insert_eq. intros H; inversion H; subst k'.
      exists k. repeat split; [assumption|]. intros name Hn.
      cbn [with_configuration values]. apply lookup_insert_ne. congruence. }
  destruct enable.
  - destruct (bool_decide (APP_KEY_NAME ∈ conf));
      [apply (Hsame (Raise UnboundLocalError)) | apply Hwr].
  - destruct (remove_first APP_KEY_NAME conf);
      [apply Hwr | apply (Hsame (Raise UnboundLocalError))].
Qed.

Lemma setAutoStart_frame_witness :
  registry (snd (setAutoStart HKEY_CURRENT_USER true empty_world))
  = registry empty_world.
Proof.
  pose proof (setAutoStart_frame HKEY_CURRENT_USER true empty_world)
    as (_ & _ & Hraise & _).
  apply (Hraise FileNotFoundError). vm_compute. reflexivity.
Defined.

(** X5: a successful [setAutoStart] keeps the other identifiers: every
    non-empty identifier other than "nvda_nvda_v1" is in the list read
    afterwards exactly when it was in the list read before. *)
Theorem setAutoStart_keeps_other_identifiers hkey enable w conf x :
  fst (_getAutoStartConfiguration hkey w) = Ok conf ->
  fst (setAutoStart hkey enable w) = Ok tt ->
  x <> "" -> x <> APP_KEY_NAME ->
  exists conf',
    fst (_getAutoStartConfiguration hkey (snd (setAutoStart hkey enable w)))
    = Ok conf' /\ (x ∈ conf' <-> x ∈ conf).
Proof.
  intros Hconf Hok Hx Hne. revert Hok. rewrite setAutoStart_unfold.
  pose proof (getconf_free hkey w conf Hconf) as Hfree.
  destruct (_getAutoStartConfiguration hkey w) as [[c|e] w1];
    simpl in Hconf; inversion Hconf; subst c.
  destruct enable.
  - case_bool_decide as Hin; [discriminate|]. intros Hok.
    eexists. split; [apply getconf_after_write, Hok|].
    rewrite elem_of_reread by (try apply config_free_app; assumption).
    rewrite elem_of_app, list_elem_of_singleton. tauto.
  - destruct (remove_first APP_KEY_NAME conf) as [conf'|] eqn:Hrm; [|discriminate].
    intros Hok. eexists. split; [apply getconf_after_write, Hok|].
    rewrite elem_of_reread
      by (try (eapply remove_first_Forall; eassumption); assumption).
    eapply remove_first_elem_other; eassumption.
Qed.

Lemma setAutoStart_keeps_other_identifiers_witness :
  let w := registry_with HKEY_CURRENT_USER KEY_ALL_ACCESS "narrator,nvda_nvda_v1" in
  exists conf',
    fst (_getAutoStartConfiguration HKEY_CURRENT_USER
           (snd (setAutoStart HKEY_CURRENT_USER false w))) = Ok conf'
    /\ ("narrator" ∈ conf' <-> "narrator" ∈ ["narrator"; "nvda_nvda_v1"]).
Proof.
  intros w.
  refine (setAutoStart_keeps_other_identifiers HKEY_CURRENT_USER false w
            ["narrator"; "nvda_nvda_v1"] "narrator" _ _ _ _).
  - vm_compute. reflexivity.
  - vm_compute. reflexivity.
  - discriminate.
  - discriminate.
Defined.

(** X6: disabling removes one occurrence of the identifier, the first:
    after a successful [setAutoStart hkey False] the list read holds
    "nvda_nvda_v1" once less than the list read before. *)
Theorem setAutoStart_disable_removes_one hkey w conf :
  fst (_getAutoStartConfiguration hkey w) = Ok conf ->
  fst (setAutoStart hkey false w) = Ok tt ->
  exists conf',
    fst (_getAutoStartConfiguration hkey (snd (setAutoStart hkey false w)))
    = Ok conf'
    /\ occurrences APP_KEY_NAME conf = S (occurrences APP_KEY_NAME conf').
Proof.
  intros Hconf. rewrite setAutoStart_unfold.
  pose proof (getconf_free hkey w conf Hconf) as Hfree.
  destruct (_getAutoStartConfiguration hkey w) as [[c|e] w1];
    simpl in Hconf; inversion Hconf; subst c.
  destruct (remove_first APP_KEY_NAME conf) as [conf'|] eqn:Hrm; [|discriminate].
  intros Hok. eexists. split; [apply getconf_after_write, Hok|].
  rewrite (occurrences_strip_empty_head _ _ APP_KEY_NAME_nonempty).
  rewrite (remove_first_occurrences _ _ _ Hrm). f_equal.
  destruct conf' as [|y conf']; [reflexivity|].
  rewrite PyStrFacts.split_join;
    [reflexivity | discriminate | eapply remove_first_Forall; eassumption].
Qed.

Lemma setAutoStart_disable_removes_one_witness :
  let w := registry_with HKEY_CURRENT_USER KEY_ALL_ACCESS
             "nvda_nvda_v1,nvda_nvda_v1" in
  exists conf',
    fst (_getAutoStartConfiguration HKEY_CURRENT_USER
           (snd (setAutoStart HKEY_CURRENT_USER false w))) = Ok conf'
    /\ occurrences APP_KEY_NAME ["nvda_nvda_v1"; "nvda_nvda_v1"]
       = S (occurrences APP_KEY_NAME conf').
Proof.
  intros w.
  refine (setAutoStart_disable_removes_one HKEY_CURRENT_USER w
            ["nvda_nvda_v1"; "nvda_nvda_v1"] _ _);
    vm_compute; reflexivity.
Defined.

Section Toggle.
Variables (hkey : Z) (w : World) (k : RegKey) (s : string) (ty : Z).
Hypothesis Hkey : registry w !! (hkey, ROOT_KEY) = Some k.
Hypothesis Hwrite : access_ok (granted k) WRITE_ACCESS = true.
Hypothesis Hvalue : values k !! "Configuration" = Some (PyStr s, ty).
Hypothesis Hshape : s = "" \/ head_nonempty s.
Hypothesis Habsent : APP_KEY_NAME ∉ PyStr.split "," s.

Let conf := strip_empty_head (PyStr.split "," s).

Lemma toggle_conf_facts :
  config_free conf /\ (APP_KEY_NAME ∉ conf) /\ PyStr.join "," conf = s
  /\ strip_empty_head
       (PyStr.split "," (PyStr.join "," (conf ++ [APP_KEY_NAME])%list))
     = (conf ++ [APP_KEY_NAME])%list.
Proof using All.
  assert (Hfree : config_free conf)
    by apply strip_empty_head_free, PyStrFacts.split_free.
  assert (Hjoin : PyStr.join "," conf = s
                  /\ (strip_empty_head (conf ++ [APP_KEY_NAME]))
                     = (conf ++ [APP_KEY_NAME])%list).
  { unfold conf. destruct Hshape as [->|Hh].
    - split; reflexivity.
    - rewrite (strip_split_head_nonempty _ Hh). split; [apply join_split|].
      destruct Hh as (f & r & E & Hf). rewrite E.
      destruct f; [congruence|reflexivity]. }
  destruct Hjoin as [Hjoin Hstrip].
  repeat apply conj; try assumption.
  - intros Hin. apply Habsent.
    apply (elem_of_strip_empty_head _ _ APP_KEY_NAME_nonempty), Hin.
  - rewrite PyStrFacts.split_join; [exact Hstrip | | apply config_free_app, Hfree].
    destruct conf; discriminate.
Qed.

Let stored1 := PyStr.join "," (conf ++ [APP_KEY_NAME]).
Let w1 := set_registry
            (<[(hkey, ROOT_KEY) := with_configuration stored1 k]> (registry w)) w.

Lemma toggle_enable : setAutoStart hkey true w = (Ok tt, w1).
Proof using All.
  destruct toggle_conf_facts as (_ & Hn & _ & _).
  apply (setAutoStart_writes hkey w k Hkey Hwrite s ty true _ Hvalue).
  split; [exact Hn | reflexivity].
Qed.

Lemma toggle_disable :
  setAutoStart hkey false w1
  = (Ok tt, set_registry
              (<[(hkey, ROOT_KEY) :=
                   with_configuration s (with_configuration stored1 k)]>
                 (registry w1)) w1).
Proof using All.
  destruct toggle_conf_facts as (_ & Hn & Hjoin & Hre).
  rewrite <- Hjoin at 1.
  apply (setAutoStart_writes hkey w1 (with_configuration stored1 k))
    with (s := stored1) (ty := REG_SZ).
  - apply lookup_insert_eq.
  - exact Hwrite.
  - apply lookup_insert_eq.
  - unfold stored1. rewrite Hre. apply remove_first_snoc, Hn.
Qed.

End Toggle.

(** X7: enabling appends the identifier to the stored string: on a
    writable key whose "Configuration" string is empty or starts with a
    non-empty field, and does not list the identifier, [setAutoStart hkey
    True] returns and stores "nvda_nvda_v1" for the empty string and the
    old string followed by ",nvda_nvda_v1" otherwise, as a REG_SZ. *)
Theorem enabling_appends_identifier hkey w k s ty :
  registry w !! (hkey, ROOT_KEY) = Some k ->
  access_ok (granted k) (Z.lor (Z.lor KEY_READ KEY_WRITE) KEY_WOW64_64KEY) = true ->
  values k !! "Configuration" = Some (PyStr s, ty) ->
  s = "" \/ head_nonempty s ->
  APP_KEY_NAME ∉ PyStr.split "," s ->
  fst (setAutoStart hkey true w) = Ok tt
  /\ exists k1,
       registry (snd (setAutoStart hkey true w)) !! (hkey, ROOT_KEY) = Some k1 /\
       values k1 !! "Configuration"
       = Some (PyStr match s with
                     | "" => "nvda_nvda_v1"
                     | _ => s +:+ ",nvda_nvda_v1"
                     end, REG_SZ).
Proof.
  intros Hk Ha Hv Hs Hn.
  rewrite (toggle_enable hkey w k s ty Hk Ha Hv Hs Hn). split; [reflexivity|].
  eexists. split; [apply lookup_insert_eq|].
  cbn [with_configuration values]. rewrite lookup_insert_eq.
  fold APP_KEY_NAME. rewrite (stored_after_enable s Hs). destruct s; reflexivity.
Qed.

Lemma enabling_appends_identifier_witness :
  let w := registry_with HKEY_CURRENT_USER KEY_ALL_ACCESS "narrator" in
  fst (setAutoStart HKEY_CURRENT_USER true w) = Ok tt
  /\ exists k1,
       registry (snd (setAutoStart HKEY_CURRENT_USER true w))
         !! (HKEY_CURRENT_USER, ROOT_KEY) = Some k1 /\
       values k1 !! "Configuration"
       = Some (PyStr ("narrator" +:+ ",nvda_nvda_v1"), REG_SZ).
Proof.
  intros w.
  refine (enabling_appends_identifier HKEY_CURRENT_USER w
            (mkRegKey KEY_ALL_ACCESS {[ "Configuration" := (PyStr "narrator", REG_SZ) ]})
            "narrator" REG_SZ _ _ _ _ _).
  - vm_compute. reflexivity.
  - vm_compute. reflexivity.
  - vm_compute. reflexivity.
  - right. exists "narrator", []. split; [reflexivity | discriminate].
  - apply (bool_decide_unpack _). vm_compute. exact I.
Defined.

(** X8: enabling and then disabling is a round trip on the stored
    string: under the conditions of X7 both calls return, and afterwards
    "Configuration" holds the original string again (as a REG_SZ) and the
    other values of the key are untouched. *)
Theorem enable_then_disable_restores hkey w k s ty :
  registry w !! (hkey, ROOT_KEY) = Some k ->
  access_ok (granted k) (Z.lor (Z.lor KEY_READ KEY_WRITE) KEY_WOW64_64KEY) = true ->
  values k !! "Configuration" = Some (PyStr s, ty) ->
  s = "" \/ head_nonempty s ->
  APP_KEY_NAME ∉ PyStr.split "," s ->
  let w1 := snd (setAutoStart hkey true w) in
  let w2 := snd (setAutoStart hkey false w1) in
  fst (setAutoStart hkey true w) = Ok tt
  /\ fst (setAutoStart hkey false w1) = Ok tt
  /\ exists k2,
       registry w2 !! (hkey, ROOT_KEY) = Some k2 /\
       values k2 !! "Configuration" = Some (PyStr s, REG_SZ) /\
       forall name, name <> "Configuration" -> values k2 !! name = values k !! name.
Proof.
  intros Hk Ha Hv Hs Hn. cbv zeta.
  rewrite (toggle_enable hkey w k s ty Hk Ha Hv Hs Hn). cbn [fst snd].
  rewrite (toggle_disable hkey w k s ty Hk Ha Hv Hs Hn). cbn [fst snd].
  repeat apply conj; try reflexivity.
  eexists. split; [apply lookup_insert_eq|].
  cbn [with_configuration values]. split; [apply lookup_insert_eq|].
  intros name Hne. rewrite !lookup_insert_ne by congruence. reflexivity.
Qed.

Lemma enable_then_disable_restores_witness :
  let w := registry_with HKEY_CURRENT_USER KEY_ALL_ACCESS "narrator,magnifier" in
  let w1 := snd (setAutoStart HKEY_CURRENT_USER true w) in
  let w2 := snd (setAutoStart HKEY_CURRENT_USER false w1) in
  fst (setAutoStart HKEY_CURRENT_USER true w) = Ok tt
  /\ fst (setAutoStart HKEY_CURRENT_USER false w1) = Ok tt
  /\ exists k2,
       registry w2 !! (HKEY_CURRENT_USER, ROOT_KEY) = Some k2 /\
       values k2 !! "Configuration" = Some (PyStr "narrator,magnifier", REG_SZ) /\
       forall name, name <> "Configuration" ->
         values k2 !! name
         = values (mkRegKey KEY_ALL_ACCESS
                     {[ "Configuration" := (PyStr "narrator,magnifier", REG_SZ) ]})
             !! name.
Proof.
  intros w.
  refine (enable_then_disable_restores HKEY_CURRENT_USER w
            (mkRegKey KEY_ALL_ACCESS
               {[ "Configuration" := (PyStr "narrator,magnifier", REG_SZ) ]})
            "narrator,magnifier" REG_SZ _ _ _ _ _).
  - vm_compute. reflexivity.
  - vm_compute. reflexivity.
  - vm_compute. reflexivity.
  - right. exists "narrator", ["magnifier"]. split; [reflexivity | discriminate].
  - apply (bool_decide_unpack _). vm_compute. exact I.
Defined.

(** ** More on [notify] *)

Lemma count_events_app vk flags l1 l2 :
  count_events vk flags (l1 ++ l2)
  = (count_events vk flags l1 + count_events vk flags l2)%nat.
Proof. unfold count_events. rewrite filter_app, length_app. reflexivity. Qed.

Lemma count_events_cons vk flags i l :
  count_events vk flags (i :: l)
  = ((if decide (wVk i = vk /\ dwFlags i = flags) then 1 else 0)
     + count_events vk flags l)%nat.
Proof.
  unfold count_events. rewrite filter_cons.
  destruct (decide (wVk i = vk /\ dwFlags i = flags)); reflexivity.
Qed.

Lemma count_events_rev vk flags l :
  count_events vk flags (rev l) = count_events vk flags l.
Proof.
  induction l as [|i l IH]; [reflexivity|].
  cbn [rev]. rewrite count_events_app, IH, !count_events_cons.
  unfold count_events at 2. cbn. lia.
Qed.

Section NotifyMore.
Variables VK_SHIFT VK_CONTROL VK_MENU : Z.
Variables INPUT_KEYBOARD KEYEVENTF_KEYUP : Z.

Abbreviation notify' :=
  (notify VK_SHIFT VK_CONTROL VK_MENU INPUT_KEYBOARD KEYEVENTF_KEYUP).

(** X9: a [notify] that raises has sent no keyboard event and changed no
    key: the registry write comes first, and it is the only step that can
    fail once [isRegistered] has returned [True]. *)
Theorem notify_failure_sends_nothing signal w e :
  fst (notify' signal w) = Raise e ->
  sentInputs (snd (notify' signal w)) = sentInputs w
  /\ keysDown (snd (notify' signal w)) = keysDown w
  /\ fst (isRegistered w) = Ok true.
Proof.
  rewrite notify_unfold.
  pose proof (isRegistered_frame w) as (_ & Hd0 & _ & Hs0).
  destruct (isRegistered w) as [[[|]|e0] w0] eqn:Hreg; cbn [snd fst] in *.
  - pose proof (CreateKey_frame HKEY_CURRENT_USER TEMP_KEY w0) as (Hd1 & Hs1).
    destruct (CreateKey HKEY_CURRENT_USER TEMP_KEY w0) as [[rkey|e1] w1];
      cbn [snd fst] in *; [|intros _; repeat split; congruence].
    pose proof (SetValueEx_frame rkey APP_KEY_NAME None REG_DWORD signal w1)
      as (Hd2 & Hs2).
    destruct (SetValueEx rkey APP_KEY_NAME None REG_DWORD signal w1)
      as [[u|e2] w2]; cbn [snd fst] in *; [|intros _; repeat split; congruence].
    pose proof (unwanted_modifiers_spec [VK_SHIFT; VK_CONTROL; VK_MENU] [] w2)
      as (Hk & _).
    destruct (unwanted_modifiers [VK_SHIFT; VK_CONTROL; VK_MENU] [] w2)
      as [[keys|e3] w3]; cbn [fst] in Hk; [|discriminate].
    unfold SendInput. cbn [fst]. discriminate.
  - discriminate.
  - exfalso. revert Hreg. rewrite isRegistered_unfold.
    destruct (registry w !! (HKEY_LOCAL_MACHINE, APP_KEY_PATH)) as [k|];
      [|discriminate].
    destruct (access_ok (granted k) READ_ACCESS); discriminate.
Qed.

(** Whatever the list of keys, the two loops of [notify] release every
    key as often as they press it. *)
Lemma notify_inputs_balanced (keys : list (Z * bool)) (vk : Z) :
  KEYEVENTF_KEYUP <> 0 ->
  count_events vk KEYEVENTF_KEYUP (notify_inputs INPUT_KEYBOARD KEYEVENTF_KEYUP keys)
  = count_events vk 0 (notify_inputs INPUT_KEYBOARD KEYEVENTF_KEYUP keys).
Proof.
  intros Hup. unfold notify_inputs.
  rewrite !count_events_app, !map_rev, !count_events_rev.
  induction keys as [|[k desired] keys IH]; [reflexivity|].
  cbn [map]. rewrite !count_events_cons. cbn [wVk dwFlags].
  destruct desired; cbn [negb];
    repeat match goal with
      | |- context [decide ?P] => destruct (decide P) as [[? ?]|?]
      end; try congruence; try lia; exfalso; intuition congruence.
Qed.

(** X10: the batch a returning [notify] sends is balanced: for every
    virtual key it holds as many key-up as key-down events; and it has
    four events plus two for each modifier the user holds. *)
Theorem notify_batch_is_balanced signal w vk :
  KEYEVENTF_KEYUP <> 0 ->
  fst (isRegistered w) = Ok true ->
  fst (notify' signal w) = Ok tt ->
  exists batch,
    sentInputs (snd (notify' signal w)) = (sentInputs w ++ [batch])%list
    /\ count_events vk KEYEVENTF_KEYUP batch = count_events vk 0 batch
    /\ length batch
       = (4 + 2 * length (filter (fun key => key ∈ keysDown w)
                                 [VK_SHIFT; VK_CONTROL; VK_MENU]))%nat.
Proof.
  intros Hup Hreg Hok.
  destruct (notify_runs _ _ _ _ _ signal w Hreg Hok) as (Hsent & _ & _).
  eexists. split; [exact Hsent|]. split.
  - rewrite <- notify_inputs_chord. apply notify_inputs_balanced, Hup.
  - unfold chord_sequence. rewrite !filter_cons, !filter_nil.
    destruct (decide (VK_SHIFT ∈ keysDown w)), (decide (VK_CONTROL ∈ keysDown w)),
      (decide (VK_MENU ∈ keysDown w)); reflexivity.
Qed.

End NotifyMore.

Lemma notify_failure_sends_nothing_witness :
  let w := registered_world {[ 0x10 ]} in
  sentInputs (snd (notify 0x10 0x11 0x12 1 2 (PyStr "on") w)) = sentInputs w
  /\ keysDown (snd (notify 0x10 0x11 0x12 1 2 (PyStr "on") w)) = keysDown w
  /\ fst (isRegistered w) = Ok true.
Proof.
  intros w.
  refine (notify_failure_sends_nothing 0x10 0x11 0x12 1 2 (PyStr "on") w
            ValueError _).
  vm_compute. reflexivity.
Defined.

Lemma notify_batch_is_balanced_witness :
  let w := registered_world {[ 0x10; 0x12 ]} in
  exists batch,
    sentInputs (snd (notify 0x10 0x11 0x12 1 2 (PyInt 3) w))
    = (sentInputs w ++ [batch])%list
    /\ count_events 0x10 2 batch = count_events 0x10 0 batch
    /\ length batch
       = (4 + 2 * length (filter (fun key => key ∈ keysDown w)
                                 [0x10; 0x11; 0x12]%Z))%nat.
Proof.
  intros w.
  refine (notify_batch_is_balanced 0x10 0x11 0x12 1 2 (PyInt 3) w 0x10 _ _ _).
  - lia.
  - vm_compute. reflexivity.
  - vm_compute. reflexivity.
Defined.

(** ** More on the Outlook app module *)

(** X11: [getContactString] is empty exactly when every one of the four
    fields is [None], empty or whitespace only: a field that shows
    something always shows in the result. *)
Theorem getContactString_empty_iff obj :
  getContactString obj = ""
  <-> blank_field (fullName obj) /\ blank_field (companyName obj)
      /\ blank_field (jobTitle obj) /\ blank_field (email1address obj).
Proof.
  assert (Hfield : forall x : option string,
            (contact_field_kept x = false <-> blank_field x)
            /\ (contact_field_kept x = true -> exists s, x = Some s /\ s <> "")).
  { intros [s|]; simpl.
    - destruct s as [|c s]; simpl.
      + split; [split; auto | discriminate].
      + split.
        * rewrite negb_false_iff.
          split; [auto | intros [?|?]; [discriminate|auto]].
        * intros _. eexists. split; [reflexivity | discriminate].
    - split; [split; auto | discriminate]. }
  unfold getContactString. destruct obj as [a b c d].
  cbn [fullName companyName jobTitle email1address].
  pose proof (Hfield a) as [Ba Ka]. pose proof (Hfield b) as [Bb Kb].
  pose proof (Hfield c) as [Bc Kc]. pose proof (Hfield d) as [Bd Kd].
  rewrite <- Ba, <- Bb, <- Bc, <- Bd. clear Ba Bb Bc Bd Hfield.
  cbn [omap list_omap].
  destruct (contact_field_kept a);
    [destruct (Ka eq_refl) as (sa & -> & Ha)|];
    (destruct (contact_field_kept b);
       [destruct (Kb eq_refl) as (sb & -> & Hb)|]);
    (destruct (contact_field_kept c);
       [destruct (Kc eq_refl) as (sc & -> & Hc)|]);
    (destruct (contact_field_kept d);
       [destruct (Kd eq_refl) as (sd & -> & Hd)|]);
    clear Ka Kb Kc Kd; cbn -[PyStr.join];
    (split; [intros Hj | intros (? & ? & ? & ?)]);
    try discriminate; try (repeat split; reflexivity); try reflexivity;
    exfalso; revert Hj;
    (apply join_nonempty;
       [discriminate
       | repeat (apply List.Forall_cons; [assumption|]); apply List.Forall_nil]).
Qed.



Section AppModuleFacts.
Variables ROLE_TOOLBAR ROLE_CHECKBOX ROLE_LISTITEM : Z.
Variable OBJID_CLIENT : Z.
Variable getClassName : Z -> string.

Ltac split_tests :=
  repeat match goal with
    | |- context [if ?b then _ else _] => destruct b
    end.


(** X13: [chooseNVDAObjectOverlayClasses] only puts classes in front of
    the list it is given: the classes already there stay, in their order,
    behind what it inserts, and what it inserts does not depend on
    them. *)
Theorem chooseNVDAObjectOverlayClasses_keeps_list version obj clsList :
  chooseNVDAObjectOverlayClasses ROLE_TOOLBAR ROLE_CHECKBOX ROLE_LISTITEM
    OBJID_CLIENT version obj clsList
  = (chooseNVDAObjectOverlayClasses ROLE_TOOLBAR ROLE_CHECKBOX ROLE_LISTITEM
       OBJID_CLIENT version obj [] ++ clsList)%list.
Proof.
  unfold chooseNVDAObjectOverlayClasses. split_tests; reflexivity.
Qed.



End AppModuleFacts.


Section OutlookMore.
Variables LOCALE_USER_DEFAULT TIME_NOSECONDS DATE_LONGDATE : Z.
Variable GetTimeFormat : Z -> Z -> datetime -> option string -> string.
Variable GetDateFormat : Z -> Z -> datetime -> option string -> string.
Variable ROLE_GRAPHIC : Z.
Variables STATE_EXPANDED STATE_COLLAPSED : Z.
Variable stateLabels : Z -> string.
Variable tr : string -> string.

Abbreviation timeRange :=
  (_generateTimeRangeText LOCALE_USER_DEFAULT TIME_NOSECONDS DATE_LONGDATE
     GetTimeFormat GetDateFormat).
Abbreviation timeText :=
  (fun t => GetTimeFormat LOCALE_USER_DEFAULT TIME_NOSECONDS t None).
Abbreviation longDate :=
  (fun t => GetDateFormat LOCALE_USER_DEFAULT DATE_LONGDATE t None).

(** X16: two calls of [_generateTimeRangeText] in a row: when the second
    range starts on the day the first started and ends on that day, its
    text is just "<time> to <time>", whatever [_lastStartDate] was before
    the first call; when it starts on another day, its text begins with
    the long date of its start. *)
Theorem time_range_date_announced_once last s1 e1 s2 e2 :
  let last1 := snd (timeRange last s1 e1) in
  (date_of s2 = date_of s1 -> date_of e2 = date_of s2 ->
     fst (timeRange last1 s2 e2) = timeText s2 +:+ " to " +:+ timeText e2)
  /\ (date_of s2 <> date_of s1 ->
      exists endText,
        fst (timeRange last1 s2 e2)
        = (longDate s2 +:+ " " +:+ timeText s2) +:+ " to " +:+ endText).
Proof.
  cbv zeta. unfold _generateTimeRangeText. cbn [fst snd]. split.
  - intros H1 H2.
    rewrite (bool_decide_eq_true_2 _ H1), (bool_decide_eq_true_2 _ H2).
    reflexivity.
  - intros Hne. rewrite (bool_decide_eq_false_2 _ Hne). cbn [negb orb].
    eexists. reflexivity.
Qed.

Abbreviation get_name :=
  (_get_name ROLE_GRAPHIC STATE_EXPANDED STATE_COLLAPSED stateLabels tr).
Abbreviation childTexts := (children_texts ROLE_GRAPHIC).

Lemma children_texts_shown headers cs : forall textList,
  childTexts headers (filter (fun c => child_shown ROLE_GRAPHIC c = true) cs) textList
  = childTexts headers cs textList.
Proof.
  induction cs as [|c cs IH]; intros textList; [reflexivity|].
  rewrite filter_cons.
  destruct (decide (child_shown ROLE_GRAPHIC c = true)) as [Hs|Hs];
    unfold child_shown in Hs.
  - apply negb_true_iff in Hs. cbn [children_texts]. rewrite Hs.
    destruct (PyStr.truthy _); apply IH.
  - apply not_true_is_false, negb_false_iff in Hs.
    cbn [children_texts]. rewrite Hs. apply IH.
Qed.

(** X17: the children that are grid rows, graphics or nameless play no
    part in [UIAGridRow._get_name]: without them the result is the same,
    a raised exception included. *)
Theorem get_name_ignores_hidden_children self :
  get_name (mkUIAGridRow (states self) (nativeOm_selection self)
              (filter (fun c => child_shown ROLE_GRAPHIC c = true) (children self))
              (reportTableHeaders self))
  = get_name self.
Proof.
  unfold _get_name.
  cbn [states nativeOm_selection children reportTableHeaders].
  destruct (match nativeOm_selection self with
            | Some item => com_guard (Some <$> item) None
            | None => mret None
            end) as [[sel|]|e]; cbn [mbind result_bind mret result_ret];
    try reflexivity.
  - destruct (selection_texts tr sel _) as [texts|e];
      cbn [mbind result_bind mret result_ret]; [|reflexivity].
    rewrite children_texts_shown. reflexivity.
  - rewrite children_texts_shown. reflexivity.
Qed.

(** X18: without a native object model, or when fetching the selected
    item raises [COMError], [UIAGridRow._get_name] returns the name made
    of the state label and the children alone; it does not raise. *)
Theorem get_name_without_selection self :
  nativeOm_selection self = None
  \/ nativeOm_selection self = Some (Raise COMError) ->
  get_name self
  = Ok (PyStr.join " "
          (childTexts (reportTableHeaders self) (children self)
             (if bool_decide (STATE_EXPANDED ∈ states self)
              then [stateLabels STATE_EXPANDED]
              else if bool_decide (STATE_COLLAPSED ∈ states self)
              then [stateLabels STATE_COLLAPSED]
              else []))).
Proof.
  intros [H|H]; unfold _get_name; rewrite H; cbn;
    destruct (bool_decide (STATE_EXPANDED ∈ states self));
    try reflexivity;
    destruct (bool_decide (STATE_COLLAPSED ∈ states self)); reflexivity.
Qed.

End OutlookMore.

Lemma time_range_date_announced_once_witness :
  let fmt_time := fun (_ _ : Z) (t : datetime) (_ : option string) =>
                    if dt_hour t =? 9 then "9:00" else "10:30" in
  let fmt_date := fun (_ _ : Z) (_ : datetime) (_ : option string) =>
                    "Monday, 3 March 2014" in
  let s := mkDatetime 2014 3 3 9 0 0 in
  let e := mkDatetime 2014 3 3 10 30 0 in
  fst (_generateTimeRangeText 1024 2 2 fmt_time fmt_date
         (snd (_generateTimeRangeText 1024 2 2 fmt_time fmt_date None s e)) s e)
  = "9:00" +:+ " to " +:+ "10:30".
Proof.
  intros fmt_time fmt_date s e.
  exact (proj1 (time_range_date_announced_once 1024 2 2 fmt_time fmt_date
                  None s e s e) eq_refl eq_refl).
Defined.

Lemma get_name_without_selection_witness :
  let self := mkUIAGridRow [1] (Some (Raise COMError))
                [mkChild false 0 (Some "Re: minutes") None] false in
  _get_name 16 1 2 (fun _ => "expanded") id self
  = Ok (PyStr.join " "
          (children_texts 16 false [mkChild false 0 (Some "Re: minutes") None]
             (if bool_decide (1 ∈ [1]) then ["expanded"]
              else if bool_decide (2 ∈ [1]) then ["expanded"] else []))).
Proof.
  intros self.
  exact (get_name_without_selection 16 1 2 (fun _ => "expanded") id self
           (or_intror eq_refl)).
Defined.
